(** * RAGAS evaluation microservice

    A shallow embedding of [ragas-service/app.py]: the LLM client selector,
    the metric factory, the NaN scrubbing helpers, the evaluation invoker and
    the HTTP handlers, followed by the properties of the service contract.

    Python values are an inductive type, floats are IEEE binary64 primitive
    floats, dictionaries are association lists in insertion order (the order
    is observable: it is the order in which [sum] adds floats), the process
    environment is a finite map.  Logging, the clock and the call into the
    evaluation library are effects of a small state-and-exception monad; the
    library itself is a parameter of the development. *)

From Stdlib Require Import ZArith String List Bool Lia.
From Stdlib Require Import Floats.PrimFloat Floats.SpecFloat Floats.FloatOps.
From stdpp Require Import gmap strings.
Import ListNotations.

Local Open Scope Z_scope.
Local Open Scope string_scope.

(* ====================================================================== *)
(** ** Python values, exceptions and arithmetic *)
(* ====================================================================== *)

Module Py.

(** The values that can sit in a request, a record of the result table or
    a log field. *)
#[warnings="-register-all"]
Inductive value : Type :=
| VNone
| VBool (b : bool)
| VInt (z : Z)
| VFloat (f : float)
| VStr (s : string)
| VList (l : list value).

(** An exception: its class and [str(e)]. *)
Record exn : Type := Exn { exn_class : string; exn_str : string }.

Inductive pyresult (A : Type) : Type :=
| Return (a : A)
| Raise (e : exn).
Arguments Return {A} a.
Arguments Raise {A} e.

Definition rbind {A B} (c : pyresult A) (k : A -> pyresult B) : pyresult B :=
  match c with
  | Return a => k a
  | Raise e => Raise e
  end.

(** A [dict] keeps insertion order; assignment to an existing key keeps
    the key's position. *)
Definition dict (V : Type) : Type := list (string * V).

Fixpoint dict_get {V} (k : string) (d : dict V) : option V :=
  match d with
  | [] => None
  | (k', v) :: rest => if String.eqb k k' then Some v else dict_get k rest
  end.

Fixpoint dict_set {V} (k : string) (v : V) (d : dict V) : dict V :=
  match d with
  | [] => [(k, v)]
  | (k', v') :: rest =>
      if String.eqb k k' then (k', v) :: rest else (k', v') :: dict_set k v rest
  end.

Definition dict_keys {V} (d : dict V) : list string := map fst d.
Definition dict_values {V} (d : dict V) : list V := map snd d.

(** [x in xs] for a list of strings. *)
Definition str_in (x : string) (xs : list string) : bool :=
  existsb (String.eqb x) xs.

(** [isinstance(v, (int, float))]; [bool] is a subclass of [int]. *)
Definition isinstance_int_float (v : value) : bool :=
  match v with
  | VBool _ | VInt _ | VFloat _ => true
  | _ => false
  end.

(** Truthiness of an optional string: [None] and [""] are falsy. *)
Definition truthy_opt_str (o : option string) : bool :=
  match o with
  | None => false
  | Some s => negb (String.eqb s "")
  end.

Definition truthy_str (s : string) : bool := negb (String.eqb s "").

(** *** Numbers *)

Inductive number : Type :=
| NInt (z : Z)
| NFloat (f : float).

Definition as_number (v : value) : option number :=
  match v with
  | VBool b => Some (NInt (Z.b2z b))
  | VInt z => Some (NInt z)
  | VFloat f => Some (NFloat f)
  | _ => None
  end.

Definition OverflowError (msg : string) : exn := Exn "OverflowError" msg.
Definition TypeError (msg : string) : exn := Exn "TypeError" msg.
Definition ValueError (msg : string) : exn := Exn "ValueError" msg.
Definition ZeroDivisionError (msg : string) : exn := Exn "ZeroDivisionError" msg.

(** [float(z)] for an integer: the nearest binary64 value, ties to even;
    [OverflowError] when it does not fit. *)
Definition float_of_int (z : Z) : pyresult float :=
  let f := SF2Prim (binary_normalize prec emax z 0 false) in
  if is_infinity f
  then Raise (OverflowError "int too large to convert to float")
  else Return f.

Definition int_to_spec (z : Z) : spec_float :=
  match z with
  | Z0 => S754_zero false
  | Zpos p => S754_finite false p 0
  | Zneg p => S754_finite true p 0
  end.

(** [a / b] on two integers: the correctly rounded quotient. *)
Definition int_truediv (a b : Z) : pyresult float :=
  if Z.eqb b 0 then Raise (ZeroDivisionError "division by zero")
  else
    let f := SF2Prim (SFdiv prec emax (int_to_spec a) (int_to_spec b)) in
    if is_infinity f
    then Raise (OverflowError "integer division result too large for a float")
    else Return f.

Definition float_truediv (a b : float) : pyresult float :=
  if PrimFloat.eqb b 0%float
  then Raise (ZeroDivisionError "float division by zero")
  else Return (a / b)%float.

(** [a + b]. *)
Definition py_add (a b : value) : pyresult value :=
  match as_number a, as_number b with
  | Some (NInt x), Some (NInt y) => Return (VInt (x + y))
  | Some (NFloat x), Some (NFloat y) => Return (VFloat (x + y)%float)
  | Some (NInt x), Some (NFloat y) =>
      rbind (float_of_int x) (fun fx => Return (VFloat (fx + y)%float))
  | Some (NFloat x), Some (NInt y) =>
      rbind (float_of_int y) (fun fy => Return (VFloat (x + fy)%float))
  | _, _ => Raise (TypeError "unsupported operand type(s) for +")
  end.

(** [a / b]. *)
Definition py_truediv (a b : value) : pyresult float :=
  match as_number a, as_number b with
  | Some (NInt x), Some (NInt y) => int_truediv x y
  | Some (NFloat x), Some (NFloat y) => float_truediv x y
  | Some (NInt x), Some (NFloat y) =>
      rbind (float_of_int x) (fun fx => float_truediv fx y)
  | Some (NFloat x), Some (NInt y) =>
      rbind (float_of_int y) (fun fy => float_truediv x fy)
  | _, _ => Raise (TypeError "unsupported operand type(s) for /")
  end.

(** [sum(xs)]: the items are added from left to right, starting from the
    integer [0].  (Recent CPython adds floats with a compensated sum; the
    two agree whenever the partial sums are exact.) *)
Fixpoint py_sum_from (acc : value) (xs : list value) : pyresult value :=
  match xs with
  | [] => Return acc
  | x :: rest => rbind (py_add acc x) (fun acc' => py_sum_from acc' rest)
  end.

Definition py_sum (xs : list value) : pyresult value := py_sum_from (VInt 0) xs.

End Py.
Import Py.

(* ====================================================================== *)
(** ** Configuration and the LLM client selector *)
(* ====================================================================== *)

(** [os.getenv(name, default)]. *)
Definition getenv (environ : gmap string string) (name default : string) : string :=
  match environ !! name with
  | Some v => v
  | None => default
  end.

(** The module-level settings, read once when the module is loaded. *)
Record Config : Type := {
  LLM_PROVIDER : string;
  OLLAMA_BASE_URL : string;
  OLLAMA_MODEL : string;
  OPENAI_API_KEY : string
}.

Definition load_config (environ : gmap string string) : Config :=
  {| LLM_PROVIDER := getenv environ "RAGAS_LLM_PROVIDER" "ollama";
     OLLAMA_BASE_URL := getenv environ "OLLAMA_BASE_URL" "http://localhost:11434";
     OLLAMA_MODEL := getenv environ "OLLAMA_MODEL" "llama3.2";
     OPENAI_API_KEY := getenv environ "OPENAI_API_KEY" "" |}.

(** The two chat-model clients. *)
Inductive LLM : Type :=
| ChatOpenAI (model : string) (temperature : Z) (api_key : string)
| ChatOllama (model : string) (base_url : string) (temperature : Z).

Definition get_llm (cfg : Config) : LLM :=
  if String.eqb (LLM_PROVIDER cfg) "openai" && truthy_str (OPENAI_API_KEY cfg)
  then ChatOpenAI "gpt-4o-mini" 0 (OPENAI_API_KEY cfg)
  else ChatOllama (OLLAMA_MODEL cfg) (OLLAMA_BASE_URL cfg) 0.

Definition is_hosted (l : LLM) : bool :=
  match l with
  | ChatOpenAI _ _ _ => true
  | ChatOllama _ _ _ => false
  end.

(* ====================================================================== *)
(** ** Request and response models *)
(* ====================================================================== *)

(** [EvaluationSample]; the handlers copy it field by field into a [dict]
    with the same four keys, which is modelled by the same record. *)
Record EvaluationSample : Type := {
  question : string;
  answer : string;
  contexts : list string;
  ground_truth : option string
}.

(** [SingleEvaluationRequest]; [metrics] is [Optional[List[str]]], so an
    explicit [null] reaches the handler as [None]. *)
Record SingleEvaluationRequest : Type := {
  single_question : string;
  single_answer : string;
  single_contexts : list string;
  single_ground_truth : option string;
  single_metrics : option (list string)
}.

Record BatchEvaluationRequest : Type := {
  samples : list EvaluationSample;
  batch_metrics : option (list string)
}.

Definition default_metrics : list string :=
  ["faithfulness"; "answer_relevancy"; "context_precision"].

Record EvaluationResult : Type := {
  metrics : dict value;
  overall_score : option float;
  evaluation_time_ms : Z;
  timestamp : string
}.

Record BatchEvaluationResult : Type := {
  results : list (dict value);
  aggregate : dict value;
  total_samples : nat;
  batch_evaluation_time_ms : Z;
  batch_timestamp : string
}.

Record HealthResponse : Type := {
  status : string;
  llm_provider : string;
  llm_model : string;
  available_metrics : list string
}.

(** What a handler hands back to the framework: the response model
    (HTTP 200) or a raised [HTTPException(status_code, detail)]. *)
Inductive http (A : Type) : Type :=
| Http200 (body : A)
| HTTPException (status_code : Z) (detail : string).
Arguments Http200 {A} body.
Arguments HTTPException {A} status_code detail.

(* ====================================================================== *)
(** ** The evaluation library *)
(* ====================================================================== *)

(** [ragas.SingleTurnSample]; [reference] defaults to [None]. *)
Record SingleTurnSample : Type := {
  user_input : string;
  response : string;
  retrieved_contexts : list string;
  reference : option string
}.

Inductive MetricClass : Type :=
| Faithfulness
| ResponseRelevancy
| LLMContextPrecisionWithoutReference
| LLMContextRecall.

(** A metric instance, [metric_class(llm=llm)]. *)
Record Metric : Type := { metric_class : MetricClass; metric_llm : LLM }.

(** What the handler observes of [result.to_pandas()]: [.columns],
    [.to_dict('records')] and, per column name, [float(df[name].mean())]
    (which raises on a column that has no mean). *)
Record DataFrame : Type := {
  df_columns : list string;
  df_records : list (dict value);
  df_mean : string -> pyresult float
}.

(** Everything outside the module: the blocking [ragas.evaluate] call
    followed by [to_pandas()], and the wall clock.  [clock k] is the k-th
    reading of [datetime.now()], [elapsed_ms t0 t1] is
    [int((t1 - t0).total_seconds() * 1000)]. *)
Record Externals : Type := {
  Time : Type;
  clock : nat -> Time;
  elapsed_ms : Time -> Time -> Z;
  isoformat : Time -> string;
  ragas_evaluate : list SingleTurnSample -> list Metric -> pyresult DataFrame
}.

(* ====================================================================== *)
(** ** Effects: log, clock, library calls *)
(* ====================================================================== *)

Inductive level : Type := WARNING | INFO | ERROR.

Inductive event : Type :=
| Log (lvl : level) (msg : string) (fields : dict value)
| CallEvaluate (dataset : list SingleTurnSample) (metric_instances : list Metric).

(** The observable history of the process, oldest event first, and the
    number of clock readings taken so far. *)
Record World : Type := { events : list event; clock_reads : nat }.

Definition M (A : Type) : Type := World -> pyresult A * World.

Definition pure {A} (a : A) : M A := fun w => (Return a, w).

Definition bind {A B} (c : M A) (k : A -> M B) : M B :=
  fun w =>
    match c w with
    | (Return a, w') => k a w'
    | (Raise e, w') => (Raise e, w')
    end.

Definition raise {A} (e : exn) : M A := fun w => (Raise e, w).

Definition lift {A} (r : pyresult A) : M A := fun w => (r, w).

Definition emit (e : event) : M unit :=
  fun w => (Return tt, {| events := events w ++ [e]; clock_reads := clock_reads w |}).

Declare Scope py_scope.
Delimit Scope py_scope with py.
Notation "x <- c ;; k" := (bind c (fun x => k))
  (at level 100, c at next level, right associativity) : py_scope.
Notation "c ;; k" := (bind c (fun _ => k))
  (at level 100, right associativity) : py_scope.
Notation "'let!' x := c 'in' k" := (rbind c (fun x => k))
  (at level 100, x name, c at next level, right associativity) : py_scope.
Local Open Scope py_scope.

(** [try: body  except Exception as e: handler(e)]. *)
Definition try_except {A} (body : M A) (handler : exn -> M A) : M A :=
  fun w =>
    match body w with
    | (Return a, w') => (Return a, w')
    | (Raise e, w') => handler e w'
    end.

Definition logger_warning (msg : string) : M unit := emit (Log WARNING msg []).
Definition logger_info (msg : string) (fields : dict value) : M unit :=
  emit (Log INFO msg fields).
Definition logger_error (msg : string) (error : string) : M unit :=
  emit (Log ERROR msg [("error", VStr error)]).

(** Iterating over an [Optional[List[str]]]: [None] is not iterable. *)
Definition iter_names (o : option (list string)) : pyresult (list string) :=
  match o with
  | Some names => Return names
  | None => Raise (TypeError "'NoneType' object is not iterable")
  end.

(** [k in names] for an [Optional[List[str]]]. *)
Definition py_in (k : string) (o : option (list string)) : pyresult bool :=
  match o with
  | Some names => Return (str_in k names)
  | None => Raise (TypeError "argument of type 'NoneType' is not iterable")
  end.

Definition names_value (o : option (list string)) : value :=
  match o with
  | Some names => VList (map VStr names)
  | None => VNone
  end.

(* ====================================================================== *)
(** ** Metrics *)
(* ====================================================================== *)

Definition AVAILABLE_METRICS : dict MetricClass :=
  [ ("faithfulness", Faithfulness);
    ("answer_relevancy", ResponseRelevancy);
    ("context_precision", LLMContextPrecisionWithoutReference);
    ("context_recall", LLMContextRecall) ].

(** The body of the [for] loop of [get_metrics], with the list under
    construction as an accumulator. *)
Fixpoint get_metrics_loop (metric_names : list string) (llm : LLM)
    (metrics : list Metric) : M (list Metric) :=
  match metric_names with
  | [] => pure metrics
  | name :: rest =>
      match dict_get name AVAILABLE_METRICS with
      | Some metric_class =>
          let metric := {| metric_class := metric_class; metric_llm := llm |} in
          get_metrics_loop rest llm (metrics ++ [metric])
      | None =>
          logger_warning ("Unknown metric: " ++ name) ;;
          get_metrics_loop rest llm metrics
      end
  end.

Definition get_metrics (metric_names : option (list string)) (llm : LLM)
    : M (list Metric) :=
  names <- lift (iter_names metric_names) ;;
  get_metrics_loop names llm [].

(* ====================================================================== *)
(** ** NaN scrubbing *)
(* ====================================================================== *)

Definition _clean_float (value : Py.value) : Py.value :=
  match value with
  | VNone => VNone
  | VFloat f => if is_nan f || is_infinity f then VNone else value
  | _ => value
  end.

Definition _clean_dict (d : dict value) : dict value :=
  map (fun '(k, v) => (k, if isinstance_int_float v then _clean_float v else v)) d.

(* ====================================================================== *)
(** ** The evaluation invoker *)
(* ====================================================================== *)

(** The body of the first [for] loop of [_run_evaluation_sync]. *)
Definition to_single_turn (s : EvaluationSample) : SingleTurnSample :=
  let sample := {| user_input := question s;
                   response := answer s;
                   retrieved_contexts := contexts s;
                   reference := None |} in
  if truthy_opt_str (ground_truth s)
  then {| user_input := user_input sample;
          response := response sample;
          retrieved_contexts := retrieved_contexts sample;
          reference := ground_truth s |}
  else sample.

(** The aggregate loop of [_run_evaluation_sync]. *)
Fixpoint aggregate_loop (result_df : DataFrame) (metric_names : list string)
    (aggregate : dict value) : pyresult (dict value) :=
  match metric_names with
  | [] => Return aggregate
  | metric_name :: rest =>
      if str_in metric_name (df_columns result_df)
      then
        let! mean_val := df_mean result_df metric_name in
        aggregate_loop result_df rest
          (dict_set metric_name (_clean_float (VFloat mean_val)) aggregate)
      else aggregate_loop result_df rest aggregate
  end.

(** The dictionary [_run_evaluation_sync] returns. *)
Record Evaluation : Type := {
  ev_scores : list (dict value);
  ev_aggregate : dict value;
  ev_evaluation_time_ms : Z
}.

Section Service.

Variable ext : Externals.
Variable cfg : Config.

(** [datetime.now()]. *)
Definition now : M (Time ext) :=
  fun w => (Return (clock ext (clock_reads w)),
            {| events := events w; clock_reads := S (clock_reads w) |}).

(** [evaluate(dataset=..., metrics=...)] followed by [to_pandas()]. *)
Definition evaluate (dataset : list SingleTurnSample) (metric_instances : list Metric)
    : M DataFrame :=
  emit (CallEvaluate dataset metric_instances) ;;
  lift (ragas_evaluate ext dataset metric_instances).

Definition _run_evaluation_sync (samples : list EvaluationSample)
    (metric_names : option (list string)) : M Evaluation :=
  start_time <- now ;;
  let llm := get_llm cfg in
  let eval_samples := map to_single_turn samples in
  let eval_dataset := eval_samples in
  metrics <- get_metrics metric_names llm ;;
  match metrics with
  | [] => raise (ValueError "No valid metrics specified")
  | _ :: _ =>
      logger_info "Starting RAGAS evaluation"
        [("sample_count", VInt (Z.of_nat (length samples)));
         ("metrics", names_value metric_names)] ;;
      result_df <- evaluate eval_dataset metrics ;;
      end_time <- now ;;
      let evaluation_time := elapsed_ms ext start_time end_time in
      logger_info "RAGAS evaluation completed"
        [("evaluation_time_ms", VInt evaluation_time);
         ("sample_count", VInt (Z.of_nat (length samples)))] ;;
      let scores := map _clean_dict (df_records result_df) in
      names <- lift (iter_names metric_names) ;;
      aggregate <- lift (aggregate_loop result_df names []) ;;
      pure {| ev_scores := scores;
              ev_aggregate := aggregate;
              ev_evaluation_time_ms := evaluation_time |}
  end.

(** The thread-pool hand-off is awaited at once, so the wrapper behaves as
    a call that logs and re-raises. *)
Definition run_evaluation (samples : list EvaluationSample)
    (metric_names : option (list string)) : M Evaluation :=
  try_except (_run_evaluation_sync samples metric_names)
    (fun e => logger_error "RAGAS evaluation failed" (exn_str e) ;; raise e).

(* ---------------------------------------------------------------------- *)
(** *** API endpoints *)
(* ---------------------------------------------------------------------- *)

(** A handler body that cannot raise. *)
Definition respond {A} (body : A) : World -> http A * World :=
  fun w => (Http200 body, w).

(** [try: body  except Exception as e: logger.error(msg, error=str(e));
    raise HTTPException(status_code=500, detail=str(e))]. *)
Definition or_500 {A} (msg : string) (body : M A) : World -> http A * World :=
  fun w =>
    match body w with
    | (Return a, w') => (Http200 a, w')
    | (Raise e, w') =>
        match logger_error msg (exn_str e) w' with
        | (_, w'') => (HTTPException 500 (exn_str e), w'')
        end
    end.

Definition health_check : World -> http HealthResponse * World :=
  respond
    {| status := "healthy";
       llm_provider := LLM_PROVIDER cfg;
       llm_model := if String.eqb (LLM_PROVIDER cfg) "ollama"
                    then OLLAMA_MODEL cfg else "gpt-4o-mini";
       available_metrics := dict_keys AVAILABLE_METRICS |}.

(** The comprehension
    [[v for k, v in scores.items() if k in request.metrics and isinstance(v, (int, float))]]. *)
Fixpoint valid_scores_of (scores : dict value) (requested : option (list string))
    : pyresult (list value) :=
  match scores with
  | [] => Return []
  | (k, v) :: rest =>
      let! requested_k := py_in k requested in
      let! tail := valid_scores_of rest requested in
      Return (if requested_k && isinstance_int_float v then v :: tail else tail)
  end.

Definition evaluate_single (request : SingleEvaluationRequest)
    : World -> http EvaluationResult * World :=
  or_500 "Single evaluation failed" (
    let sample := {| question := single_question request;
                     answer := single_answer request;
                     contexts := single_contexts request;
                     ground_truth := single_ground_truth request |} in
    result <- run_evaluation [sample] (single_metrics request) ;;
    let scores := match ev_scores result with
                  | first :: _ => first
                  | [] => []
                  end in
    valid_scores <- lift (valid_scores_of scores (single_metrics request)) ;;
    overall <- lift (match valid_scores with
                     | [] => Return None
                     | _ :: _ =>
                         let! total := py_sum valid_scores in
                         let! quotient :=
                           py_truediv total (VInt (Z.of_nat (length valid_scores))) in
                         Return (Some quotient)
                     end) ;;
    stamp <- now ;;
    pure {| metrics := scores;
            overall_score := overall;
            evaluation_time_ms := ev_evaluation_time_ms result;
            timestamp := isoformat ext stamp |}).

(** The comprehension [[v for v in aggregate.values() if v is not None]]. *)
Definition is_not_None (v : value) : bool :=
  match v with
  | VNone => false
  | _ => true
  end.

Definition value_of_overall (o : option float) : value :=
  match o with
  | Some f => VFloat f
  | None => VNone
  end.

Definition evaluate_batch (request : BatchEvaluationRequest)
    : World -> http BatchEvaluationResult * World :=
  fun w =>
    if (100 <? length (samples request))%nat
    then (HTTPException 400 "Maximum 100 samples per batch", w)
    else if (length (samples request) =? 0)%nat
    then (HTTPException 400 "At least one sample required", w)
    else
      or_500 "Batch evaluation failed" (
        let sample_dicts := map (fun s => {| question := question s;
                                             answer := answer s;
                                             contexts := contexts s;
                                             ground_truth := ground_truth s |})
                                (samples request) in
        result <- run_evaluation sample_dicts (batch_metrics request) ;;
        let aggregate := ev_aggregate result in
        let valid_values := List.filter is_not_None (dict_values aggregate) in
        overall <- lift (match valid_values with
                         | [] => Return None
                         | _ :: _ =>
                             let! total := py_sum valid_values in
                             let! quotient :=
                               py_truediv total (VInt (Z.of_nat (length valid_values))) in
                             Return (Some quotient)
                         end) ;;
        let aggregate := dict_set "overall" (value_of_overall overall) aggregate in
        stamp <- now ;;
        pure {| results := ev_scores result;
                aggregate := aggregate;
                total_samples := length (samples request);
                batch_evaluation_time_ms := ev_evaluation_time_ms result;
                batch_timestamp := isoformat ext stamp |}) w.

End Service.

(* ====================================================================== *)
(** ** Reference descriptions used by the properties *)
(* ====================================================================== *)

(** The metric instances built from a list of identifiers: one per
    occurrence of a catalog identifier, in request order. *)
Definition known_metrics (names : list string) (llm : LLM) : list Metric :=
  flat_map (fun name =>
              match dict_get name AVAILABLE_METRICS with
              | Some c => [{| metric_class := c; metric_llm := llm |}]
              | None => []
              end) names.

(** The warnings logged for the identifiers outside the catalog. *)
Definition unknown_warnings (names : list string) : list event :=
  flat_map (fun name =>
              match dict_get name AVAILABLE_METRICS with
              | Some _ => []
              | None => [Log WARNING ("Unknown metric: " ++ name) []]
              end) names.

(** The fixed catalog of metric identifiers. *)
Definition catalog : list string :=
  ["faithfulness"; "answer_relevancy"; "context_precision"; "context_recall"].

Definition in_catalog (name : string) : bool := str_in name catalog.

(** Appending to the history, and advancing the count of clock readings. *)
Definition logged (w : World) (es : list event) : World :=
  {| events := (events w ++ es)%list; clock_reads := clock_reads w |}.

Definition ticked (w : World) (n : nat) : World :=
  {| events := events w; clock_reads := (n + clock_reads w)%nat |}.

(** The calls into the evaluation library among some events. *)
Definition is_call (e : event) : bool :=
  match e with
  | CallEvaluate _ _ => true
  | Log _ _ _ => false
  end.

Definition calls (es : list event) : list event := List.filter is_call es.

Definition starting_event (samples : list EvaluationSample) (names : option (list string))
    : event :=
  Log INFO "Starting RAGAS evaluation"
    [("sample_count", VInt (Z.of_nat (length samples)));
     ("metrics", names_value names)].

Definition completed_event (samples : list EvaluationSample) (t : Z) : event :=
  Log INFO "RAGAS evaluation completed"
    [("evaluation_time_ms", VInt t);
     ("sample_count", VInt (Z.of_nat (length samples)))].

Definition failed_event (msg : string) (e : exn) : event :=
  Log ERROR msg [("error", VStr (exn_str e))].

(** The two readings of the clock around the library call, for a run
    started in world [w]. *)
Definition measured (ext : Externals) (w : World) : Z :=
  elapsed_ms ext (clock ext (clock_reads w)) (clock ext (S (clock_reads w))).

(** The sample dictionary [evaluate_single] builds from its request. *)
Definition single_sample (request : SingleEvaluationRequest) : EvaluationSample :=
  {| question := single_question request;
     answer := single_answer request;
     contexts := single_contexts request;
     ground_truth := single_ground_truth request |}.

(** *** The contract's vocabulary *)

(** The entries of a returned mapping whose key is in the requested set. *)
Definition restrict_to (requested : list string) (returned : dict value) : dict value :=
  List.filter (fun kv => str_in (fst kv) requested) returned.

(** The arithmetic mean of a list of numbers: their sum over their count. *)
Definition arithmetic_mean (xs : list value) : pyresult float :=
  let! total := py_sum xs in
  py_truediv total (VInt (Z.of_nat (length xs))).

(** An absent value is [null]. *)
Definition absent (v : value) : bool :=
  match v with
  | VNone => true
  | _ => false
  end.

Definition present (v : value) : bool := negb (absent v).

(** The mean of a list of numbers, absent for the empty list. *)
Definition mean_or_absent (xs : list value) : pyresult (option float) :=
  match xs with
  | [] => Return None
  | y :: ys => let! m := arithmetic_mean (y :: ys) in Return (Some m)
  end.

(** The mean of the values [keep] retains; absent when it retains none. *)
Definition mean_of (keep : value -> bool) (xs : list value) : pyresult (option float) :=
  mean_or_absent (List.filter keep xs).


(** A non-finite float: NaN or an infinity. *)
Definition non_finite (v : value) : bool :=
  match v with
  | VFloat f => is_nan f || is_infinity f
  | _ => false
  end.

(** Non-finite floats become [null], everything else stays. *)
Definition scrubbed (v : value) : value :=
  if non_finite v then VNone else v.

(** The library's side of the contract for batches: one row per sample. *)
Definition one_row_per_sample (ext : Externals) : Prop :=
  forall dataset metric_instances df,
    ragas_evaluate ext dataset metric_instances = Return df ->
    length (df_records df) = length dataset.


(** *** A stand-in library for the examples *)

Definition column_of (m : Metric) : string :=
  match metric_class m with
  | Faithfulness => "faithfulness"
  | ResponseRelevancy => "answer_relevancy"
  | LLMContextPrecisionWithoutReference => "llm_context_precision_without_reference"
  | LLMContextRecall => "context_recall"
  end.

(** Fixed scores; context recall cannot be judged without a reference. *)
Definition stub_score (s : SingleTurnSample) (m : Metric) : float :=
  match metric_class m with
  | Faithfulness => 0.5%float
  | ResponseRelevancy => 1%float
  | LLMContextPrecisionWithoutReference => 0.75%float
  | LLMContextRecall =>
      match reference s with
      | Some _ => 0.25%float
      | None => nan
      end
  end.

Definition stub_record (metric_instances : list Metric) (s : SingleTurnSample)
    : dict value :=
  ([("user_input", VStr (user_input s));
    ("retrieved_contexts", VList (map VStr (retrieved_contexts s)));
    ("response", VStr (response s))]
   ++ map (fun m => (column_of m, VFloat (stub_score s m))) metric_instances)%list.

(** The mean of a float column, NaN entries skipped. *)
Fixpoint stub_mean_from (total count : float) (column : list (option value))
    : pyresult float :=
  match column with
  | [] => Return (total / count)%float
  | Some (VFloat f) :: rest =>
      if is_nan f then stub_mean_from total count rest
      else stub_mean_from (total + f)%float (count + 1)%float rest
  | _ :: rest => Raise (TypeError "Could not convert to numeric")
  end.

Definition stub_evaluate (dataset : list SingleTurnSample) (metric_instances : list Metric)
    : pyresult DataFrame :=
  let records := map (stub_record metric_instances) dataset in
  Return {| df_columns := (["user_input"; "retrieved_contexts"; "response"]
                           ++ map column_of metric_instances)%list;
            df_records := records;
            df_mean := fun name =>
                         stub_mean_from 0%float 0%float (map (dict_get name) records) |}.

Definition stub_ext : Externals :=
  {| Time := Z;
     clock := fun k => 1000 * Z.of_nat k;
     elapsed_ms := fun t0 t1 => t1 - t0;
     isoformat := fun _ => "2024-01-01T00:00:00";
     ragas_evaluate := stub_evaluate |}.

Definition stub_cfg : Config := load_config ∅.

Definition fresh : World := {| events := []; clock_reads := 0 |}.

Definition paris : EvaluationSample :=
  {| question := "What is the capital of France?";
     answer := "Paris";
     contexts := ["Paris is the capital of France."];
     ground_truth := None |}.

Definition paris_request (names : list string) : SingleEvaluationRequest :=
  {| single_question := question paris;
     single_answer := answer paris;
     single_contexts := contexts paris;
     single_ground_truth := None;
     single_metrics := Some names |}.

Definition unknown_warning (name : string) : event :=
  Log WARNING ("Unknown metric: " ++ name) [].

Definition scrub_record (d : dict value) : dict value :=
  map (fun kv => (fst kv, scrubbed (snd kv))) d.

Definition paris_names : list string :=
  ["faithfulness"; "bogus"; "context_recall"; "context_precision"].

Definition paris_with_truth : EvaluationSample :=
  {| question := question paris;
     answer := answer paris;
     contexts := contexts paris;
     ground_truth := Some "Paris" |}.

Definition paris_batch : BatchEvaluationRequest :=
  {| samples := [paris; paris_with_truth];
     batch_metrics := Some ["faithfulness"; "context_recall"; "context_precision"] |}.

(** A sample whose ground truth is supplied, as the empty string. *)
Definition empty_truth : EvaluationSample :=
  {| question := question paris;
     answer := answer paris;
     contexts := contexts paris;
     ground_truth := Some "" |}.

(* ====================================================================== *)
(** ** The static endpoints *)
(* ====================================================================== *)

Record MetricInfo : Type := {
  description : string;
  range : string;
  higher_is_better : bool
}.

(** The body of [GET /metrics]. *)
Record MetricsInfo : Type := {
  info_available_metrics : dict MetricInfo;
  info_default_metrics : list string
}.

Definition get_metrics_info : World -> http MetricsInfo * World :=
  respond
    {| info_available_metrics :=
         [ ("faithfulness",
            {| description := "Measures if the answer is grounded in the retrieved context";
               range := "0.0 - 1.0";
               higher_is_better := true |});
           ("answer_relevancy",
            {| description := "Measures if the answer is relevant to the question";
               range := "0.0 - 1.0";
               higher_is_better := true |});
           ("context_precision",
            {| description := "Measures if retrieved contexts are relevant to the question";
               range := "0.0 - 1.0";
               higher_is_better := true |});
           ("context_recall",
            {| description :=
                 "Measures if context contains info needed to answer (requires ground_truth)";
               range := "0.0 - 1.0";
               higher_is_better := true |}) ];
       info_default_metrics := ["faithfulness"; "answer_relevancy"; "context_precision"] |}.

(** The body of [GET /]. *)
Record ServiceInfo : Type := {
  service : string;
  version : string;
  ragas_version : string;
  endpoints : dict string
}.

Definition root : World -> http ServiceInfo * World :=
  respond
    {| service := "RAGAS Evaluation Microservice";
       version := "2.0.0";
       ragas_version := "0.2.x";
       endpoints := [ ("health", "GET /health");
                      ("evaluate_single", "POST /evaluate");
                      ("evaluate_batch", "POST /evaluate/batch");
                      ("metrics_info", "GET /metrics") ] |}.

(** *** Further vocabulary *)

(** The model a client talks to. *)
Definition llm_model_name (l : LLM) : string :=
  match l with
  | ChatOpenAI model _ _ => model
  | ChatOllama model _ _ => model
  end.

(** The overall score of the single endpoint, from the first record and
    the requested names. *)
Definition single_overall (scores : dict value) (requested : option (list string))
    : pyresult (option float) :=
  let! valid_scores := valid_scores_of scores requested in
  mean_or_absent valid_scores.

Definition first_record (scores : list (dict value)) : dict value :=
  match scores with
  | first :: _ => first
  | [] => []
  end.

(** A library whose evaluation fails with [e]. *)
Definition failing_ext (e : exn) : Externals :=
  {| Time := Z;
     clock := fun k => 1000 * Z.of_nat k;
     elapsed_ms := fun t0 t1 => t1 - t0;
     isoformat := fun _ => "2024-01-01T00:00:00";
     ragas_evaluate := fun _ _ => Raise e |}.

(** A library that answers with a table without rows. *)
Definition empty_table : DataFrame :=
  {| df_columns := [];
     df_records := [];
     df_mean := fun name => Raise (Exn "KeyError" name) |}.

Definition empty_ext : Externals :=
  {| Time := Z;
     clock := fun k => 1000 * Z.of_nat k;
     elapsed_ms := fun t0 t1 => t1 - t0;
     isoformat := fun _ => "2024-01-01T00:00:00";
     ragas_evaluate := fun _ _ => Return empty_table |}.

Definition backend_down : exn := Exn "ConnectionError" "LLM backend unreachable".

(** *** Further stand-ins *)

(** A library that answers every call with the table [df]. *)
Definition table_ext (df : DataFrame) : Externals :=
  {| Time := Z;
     clock := fun k => 1000 * Z.of_nat k;
     elapsed_ms := fun t0 t1 => t1 - t0;
     isoformat := fun _ => "2024-01-01T00:00:00";
     ragas_evaluate := fun _ _ => Return df |}.

(** A one-row table with a NaN, both infinities and one finite score; the
    column means are those scores. *)
Definition non_finite_table : DataFrame :=
  {| df_columns := ["user_input"; "faithfulness"; "answer_relevancy"; "context_recall";
                    "context_precision"];
     df_records := [ [("user_input", VStr "What is the capital of France?");
                      ("faithfulness", VFloat nan);
                      ("answer_relevancy", VFloat infinity);
                      ("context_recall", VFloat neg_infinity);
                      ("context_precision", VFloat 0.5%float)] ];
     df_mean := fun name =>
                  match dict_get name [("faithfulness", nan);
                                       ("answer_relevancy", infinity);
                                       ("context_recall", neg_infinity);
                                       ("context_precision", 0.5%float)] with
                  | Some mean => Return mean
                  | None => Raise (TypeError "Could not convert to numeric")
                  end |}.

(** Two samples without ground truth: context recall is NaN in every row. *)
Definition recall_batch (names : list string) : BatchEvaluationRequest :=
  {| samples := [paris; paris]; batch_metrics := Some names |}.

Definition mixed_batch : BatchEvaluationRequest :=
  {| samples := [paris; paris_with_truth]; batch_metrics := Some paris_names |}.

(** The world after a request that went through the invoker: its
    warnings, the two informational logs around the one call into the
    library, and three readings of the clock. *)
Definition completed_run (ext : Externals) (cfg : Config)
    (samples : list EvaluationSample) (names : list string) (w : World) : World :=
  ticked (logged w (unknown_warnings names
                    ++ [starting_event samples (Some names);
                        CallEvaluate (map to_single_turn samples)
                          (known_metrics names (get_llm cfg));
                        completed_event samples (measured ext w)])%list) 3.

(* ====================================================================== *)
(** ** Properties *)
(* ====================================================================== *)

(** *** The arithmetic and the stand-in library on concrete inputs *)

Example float_of_int_ties_to_even :
  float_of_int (2 ^ 53 + 1) = Return 9007199254740992%float
  /\ float_of_int (2 ^ 53 + 3) = Return 9007199254740996%float.
Proof. split; vm_compute; reflexivity. Qed.

Example float_of_int_overflow :
  float_of_int (2 ^ 1024) = Raise (OverflowError "int too large to convert to float").
Proof. vm_compute. reflexivity. Qed.

Example int_truediv_rounds_once :
  int_truediv 1 3 = Return (1 / 3)%float
  /\ int_truediv (10 ^ 400) (10 ^ 399) = Return 10%float
  /\ int_truediv 7 2 = Return 3.5%float.
Proof. repeat split; vm_compute; reflexivity. Qed.

Example py_sum_mixed :
  py_sum [VInt 1; VFloat 0.5%float; VBool true] = Return (VFloat 2.5%float).
Proof. vm_compute. reflexivity. Qed.

Example py_sum_of_text :
  py_sum [VFloat 0.5%float; VStr "q"]
  = Raise (TypeError "unsupported operand type(s) for +").
Proof. vm_compute. reflexivity. Qed.

Example arithmetic_mean_of_three :
  arithmetic_mean [VFloat 0.5%float; VFloat 0.75%float; VFloat 0.25%float]
  = Return 0.5%float.
Proof. vm_compute. reflexivity. Qed.

Example dict_set_keeps_position :
  dict_set "a" (VInt 3) [("a", VInt 1); ("b", VInt 2)] = [("a", VInt 3); ("b", VInt 2)]
  /\ dict_set "c" (VInt 3) [("a", VInt 1); ("b", VInt 2)]
     = [("a", VInt 1); ("b", VInt 2); ("c", VInt 3)].
Proof. split; reflexivity. Qed.

(** The example of the contract: one requested metric, and the overall
    score is that metric's value. *)
Example paris_faithfulness :
  fst (evaluate_single stub_ext stub_cfg (paris_request ["faithfulness"]) fresh)
  = Http200 {| metrics := [("user_input", VStr "What is the capital of France?");
                           ("retrieved_contexts",
                            VList [VStr "Paris is the capital of France."]);
                           ("response", VStr "Paris");
                           ("faithfulness", VFloat 0.5%float)];
               overall_score := Some 0.5%float;
               evaluation_time_ms := 1000;
               timestamp := "2024-01-01T00:00:00" |}.
Proof. vm_compute. reflexivity. Qed.

(** A request that names a text column of the table as a metric: the
    column has no mean, and the request ends in a 500. *)
Example paris_text_column_requested :
  fst (evaluate_single stub_ext stub_cfg (paris_request ["faithfulness"; "user_input"])
         fresh)
  = HTTPException 500 "Could not convert to numeric".
Proof. vm_compute. reflexivity. Qed.

(** A request with [metrics] set to [null]. *)
Example paris_null_metrics :
  fst (evaluate_single stub_ext stub_cfg
         {| single_question := question paris;
            single_answer := answer paris;
            single_contexts := contexts paris;
            single_ground_truth := None;
            single_metrics := None |} fresh)
  = HTTPException 500 "'NoneType' object is not iterable".
Proof. vm_compute. reflexivity. Qed.

(** *** Dictionaries, the history, the metric factory *)

Lemma truthy_str_spec (s : string) : truthy_str s = true <-> s <> "".
Proof.
  unfold truthy_str. destruct (String.eqb_spec s ""); simpl; split; congruence.
Qed.

Lemma logged_nil (w : World) : logged w [] = w.
Proof. destruct w; unfold logged; simpl. now rewrite app_nil_r. Qed.

Lemma logged_logged (w : World) (es fs : list event) :
  logged (logged w es) fs = logged w (es ++ fs)%list.
Proof. unfold logged; simpl. now rewrite app_assoc. Qed.

Lemma dict_get_catalog (name : string) :
  in_catalog name = match dict_get name AVAILABLE_METRICS with
                    | Some _ => true
                    | None => false
                    end.
Proof.
  unfold in_catalog, catalog, str_in, AVAILABLE_METRICS; simpl.
  repeat (destruct (String.eqb name _); simpl; [reflexivity |]).
  reflexivity.
Qed.

Lemma get_metrics_loop_spec (names : list string) (llm : LLM) :
  forall (acc : list Metric) (w : World),
    get_metrics_loop names llm acc w
    = (Return (acc ++ known_metrics names llm)%list, logged w (unknown_warnings names)).
Proof.
  induction names as [| name rest IH]; intros acc w;
    cbn [get_metrics_loop known_metrics unknown_warnings flat_map].
  - unfold pure. now rewrite app_nil_r, logged_nil.
  - destruct (dict_get name AVAILABLE_METRICS) as [c |].
    + rewrite IH. cbn [app]. now rewrite <- app_assoc.
    + unfold bind, logger_warning, emit. rewrite IH.
      fold (logged w [Log WARNING ("Unknown metric: " ++ name) []]).
      now rewrite logged_logged.
Qed.

Lemma get_metrics_spec (names : list string) (llm : LLM) (w : World) :
  get_metrics (Some names) llm w
  = (Return (known_metrics names llm), logged w (unknown_warnings names)).
Proof.
  unfold get_metrics, bind, lift; simpl. now rewrite get_metrics_loop_spec.
Qed.

Lemma known_metrics_nil_iff (names : list string) (llm : LLM) :
  known_metrics names llm = [] <-> forallb (fun n => negb (in_catalog n)) names = true.
Proof.
  induction names as [| n rest IH]; cbn [known_metrics flat_map forallb]; [tauto |].
  rewrite dict_get_catalog.
  destruct (dict_get n AVAILABLE_METRICS); cbn [negb andb app].
  - split; intro H; discriminate.
  - exact IH.
Qed.

Lemma calls_app (es fs : list event) : calls (es ++ fs)%list = (calls es ++ calls fs)%list.
Proof. unfold calls. apply List.filter_app. Qed.

Lemma calls_unknown_warnings (names : list string) : calls (unknown_warnings names) = [].
Proof.
  induction names as [| n rest IH]; [reflexivity |].
  cbn [unknown_warnings flat_map]. fold (unknown_warnings rest).
  rewrite calls_app, IH. now destruct (dict_get n AVAILABLE_METRICS).
Qed.

(** *** The invoker in closed form *)

Section Invoker.

Variable ext : Externals.
Variable cfg : Config.

(** The invoker, run from world [w]: which branch is taken, what is
    returned and what has been logged by then. *)
Lemma run_evaluation_sync_unfold (samples : list EvaluationSample)
    (names : list string) (w : World) :
  _run_evaluation_sync ext cfg samples (Some names) w
  = let ms := known_metrics names (get_llm cfg) in
    let ds := map to_single_turn samples in
    let w1 := ticked (logged w (unknown_warnings names)) 1 in
    match ms with
    | [] => (Raise (ValueError "No valid metrics specified"), w1)
    | _ :: _ =>
        let w2 := logged w1 [starting_event samples (Some names); CallEvaluate ds ms] in
        match ragas_evaluate ext ds ms with
        | Raise e => (Raise e, w2)
        | Return df =>
            let w3 := ticked (logged w2 [completed_event samples (measured ext w)]) 1 in
            match aggregate_loop df names [] with
            | Raise e => (Raise e, w3)
            | Return agg =>
                (Return {| ev_scores := map _clean_dict (df_records df);
                           ev_aggregate := agg;
                           ev_evaluation_time_ms := measured ext w |}, w3)
            end
        end
    end.
Proof.
  unfold _run_evaluation_sync, bind at 1, now.
  unfold bind at 1. rewrite get_metrics_spec.
  cbv zeta.
  destruct (known_metrics names (get_llm cfg)) as [| m ms] eqn:Ems.
  - reflexivity.
  - unfold evaluate, logger_info, bind, emit, lift, raise, pure, iter_names.
    unfold measured, logged, ticked, starting_event, completed_event.
    cbn [events clock_reads Nat.add].
    destruct (ragas_evaluate ext (map to_single_turn samples) (m :: ms)) as [df | e].
    + cbn [events clock_reads].
      destruct (aggregate_loop df names []) as [agg | e];
        repeat rewrite <- app_assoc; reflexivity.
    + repeat rewrite <- app_assoc; reflexivity.
Qed.

Lemma run_evaluation_sync_None (samples : list EvaluationSample) (w : World) :
  _run_evaluation_sync ext cfg samples None w
  = (Raise (TypeError "'NoneType' object is not iterable"), ticked w 1).
Proof. reflexivity. Qed.

Lemma run_evaluation_unfold (samples : list EvaluationSample)
    (names : option (list string)) (w : World) :
  run_evaluation ext cfg samples names w
  = match _run_evaluation_sync ext cfg samples names w with
    | (Return ev, w') => (Return ev, w')
    | (Raise e, w') => (Raise e, logged w' [failed_event "RAGAS evaluation failed" e])
    end.
Proof.
  unfold run_evaluation, try_except.
  destruct (_run_evaluation_sync ext cfg samples names w) as [[ev | e] w']; reflexivity.
Qed.

(** What a successful run of the invoker tells about the request, the
    library's answer and the history. *)
Lemma run_evaluation_Return (samples : list EvaluationSample)
    (requested : option (list string)) (w w' : World) (ev : Evaluation) :
  run_evaluation ext cfg samples requested w = (Return ev, w') ->
  exists (names : list string) (df : DataFrame),
    requested = Some names
    /\ known_metrics names (get_llm cfg) <> []
    /\ ragas_evaluate ext (map to_single_turn samples) (known_metrics names (get_llm cfg))
       = Return df
    /\ ev_scores ev = map _clean_dict (df_records df)
    /\ aggregate_loop df names [] = Return (ev_aggregate ev)
    /\ ev_evaluation_time_ms ev = measured ext w
    /\ w' = ticked (logged w (unknown_warnings names
                              ++ [starting_event samples (Some names);
                                  CallEvaluate (map to_single_turn samples)
                                    (known_metrics names (get_llm cfg));
                                  completed_event samples (measured ext w)])%list) 2.
Proof.
  rewrite run_evaluation_unfold.
  destruct requested as [names |]; [| rewrite run_evaluation_sync_None; discriminate].
  rewrite run_evaluation_sync_unfold. cbv zeta.
  destruct (known_metrics names (get_llm cfg)) as [| m ms] eqn:Ems; [discriminate |].
  destruct (ragas_evaluate ext (map to_single_turn samples) (m :: ms)) as [df | e] eqn:Elib;
    [| discriminate].
  destruct (aggregate_loop df names []) as [agg | e] eqn:Eagg; [| discriminate].
  intros H. injection H as <- <-.
  exists names, df. rewrite Ems.
  split; [reflexivity |]. split; [discriminate |]. split; [assumption |].
  split; [reflexivity |]. split; [assumption |]. split; [reflexivity |].
  unfold ticked, logged; cbn [events clock_reads Nat.add].
  now repeat rewrite <- app_assoc.
Qed.

(** When no catalog identifier is requested the invoker raises before the
    library is reached. *)
Lemma run_evaluation_no_valid_metrics (samples : list EvaluationSample)
    (names : list string) (w : World) :
  forallb (fun n => negb (in_catalog n)) names = true ->
  run_evaluation ext cfg samples (Some names) w
  = (Raise (ValueError "No valid metrics specified"),
     logged (ticked (logged w (unknown_warnings names)) 1)
       [failed_event "RAGAS evaluation failed" (ValueError "No valid metrics specified")]).
Proof.
  intros H. apply (known_metrics_nil_iff names (get_llm cfg)) in H.
  rewrite run_evaluation_unfold, run_evaluation_sync_unfold. cbv zeta.
  now rewrite H.
Qed.

End Invoker.

Lemma valid_scores_of_Some (scores : dict value) (names : list string) :
  valid_scores_of scores (Some names)
  = Return (dict_values
              (List.filter
                 (fun kv => str_in (fst kv) names && isinstance_int_float (snd kv))
                 scores)).
Proof.
  induction scores as [| [k v] rest IH]; [reflexivity |].
  cbn [valid_scores_of py_in rbind]. rewrite IH. cbn [rbind List.filter fst snd].
  destruct (str_in k names && isinstance_int_float v); reflexivity.
Qed.

(** *** Means *)

Lemma values_of_filtered (names : list string) (q : value -> bool) (d : dict value) :
  dict_values (List.filter (fun kv => str_in (fst kv) names && q (snd kv)) d)
  = List.filter q (dict_values (restrict_to names d)).
Proof.
  unfold dict_values, restrict_to.
  induction d as [| [k v] rest IH]; [reflexivity |].
  cbn [List.filter fst snd]. destruct (str_in k names); cbn [andb map List.filter snd].
  - destruct (q v); cbn [map snd]; now rewrite IH.
  - exact IH.
Qed.

(** The expression [sum(xs) / len(xs) if xs else None] of the handlers is
    the arithmetic mean of [xs], absent for the empty list. *)
Lemma mean_expression (xs : list value) :
  match xs with
  | [] => Return None
  | _ :: _ =>
      let! total := py_sum xs in
      let! quotient := py_truediv total (VInt (Z.of_nat (length xs))) in
      Return (Some quotient)
  end
  = mean_or_absent xs.
Proof.
  destruct xs as [| y ys]; [reflexivity |].
  unfold mean_or_absent, arithmetic_mean. now destruct (py_sum (y :: ys)).
Qed.


Lemma filter_all_absent (keep : value -> bool) (xs : list value) :
  (forall v, keep v = true -> absent v = false) ->
  Forall (fun v => v = VNone) xs ->
  List.filter keep xs = [].
Proof.
  intros Hkeep. induction 1 as [| v rest Hv _ IH]; [reflexivity |].
  cbn [List.filter]. rewrite IH. subst v.
  destruct (keep VNone) eqn:E; [| reflexivity].
  apply Hkeep in E. discriminate.
Qed.

Lemma is_not_None_present (v : value) : is_not_None v = present v.
Proof. now destruct v. Qed.

Lemma dict_get_set_same {V} (k : string) (v : V) (d : dict V) :
  dict_get k (dict_set k v d) = Some v.
Proof.
  induction d as [| [k' v'] rest IH]; cbn [dict_set dict_get].
  - now rewrite String.eqb_refl.
  - destruct (String.eqb k k') eqn:E; cbn [dict_get]; rewrite E; [reflexivity | exact IH].
Qed.

Lemma dict_get_set_other {V} (k k' : string) (v : V) (d : dict V) :
  k <> k' -> dict_get k (dict_set k' v d) = dict_get k d.
Proof.
  intros Hne. induction d as [| [k0 v0] rest IH]; cbn [dict_set dict_get].
  - destruct (String.eqb_spec k k'); [contradiction | reflexivity].
  - destruct (String.eqb_spec k' k0) as [-> | Hk0]; cbn [dict_get].
    + destruct (String.eqb_spec k k0); [contradiction | reflexivity].
    + destruct (String.eqb k k0); [reflexivity | exact IH].
Qed.

(** *** The handlers, inverted *)

Section Handlers.

Variable ext : Externals.
Variable cfg : Config.

(** A 200 from the single endpoint: the request named its metrics, the
    library answered, and the response was assembled from that answer. *)
Lemma evaluate_single_200 (request : SingleEvaluationRequest) (w w' : World)
    (resp : EvaluationResult) :
  evaluate_single ext cfg request w = (Http200 resp, w') ->
  exists (names : list string) (df : DataFrame),
    single_metrics request = Some names
    /\ ragas_evaluate ext [to_single_turn (single_sample request)]
         (known_metrics names (get_llm cfg)) = Return df
    /\ metrics resp = match df_records df with
                      | first :: _ => _clean_dict first
                      | [] => []
                      end
    /\ mean_of isinstance_int_float (dict_values (restrict_to names (metrics resp)))
       = Return (overall_score resp)
    /\ (exists agg, aggregate_loop df names [] = Return agg)
    /\ events w'
       = (events w ++ unknown_warnings names
          ++ [starting_event [single_sample request] (Some names);
              CallEvaluate [to_single_turn (single_sample request)]
                (known_metrics names (get_llm cfg));
              completed_event [single_sample request] (measured ext w)])%list.
Proof.
  unfold evaluate_single, or_500, bind. fold (single_sample request).
  destruct (run_evaluation ext cfg [single_sample request] (single_metrics request) w)
    as [[ev | e] w1] eqn:Hrun.
  2:{ destruct (logger_error _ _ w1); discriminate. }
  apply run_evaluation_Return in Hrun
    as (names & df & Hnames & _ & Hlib & Hscores & Hagg & _ & Hw1).
  rewrite Hnames, valid_scores_of_Some. unfold lift at 1.
  rewrite mean_expression, values_of_filtered.
  set (scores := match ev_scores ev with first :: _ => first | [] => [] end).
  change (mean_or_absent (List.filter ?keep ?xs)) with (mean_of keep xs).
  unfold lift, now, pure.
  destruct (mean_of isinstance_int_float (dict_values (restrict_to names scores)))
    as [overall | e] eqn:Hmean.
  2:{ destruct (logger_error _ _ w1); discriminate. }
  intros H. injection H as <- <-. cbn [metrics overall_score].
  exists names, df. split; [reflexivity |]. split; [exact Hlib |].
  split; [| split; [exact Hmean | split; [eexists; exact Hagg | now rewrite Hw1]]].
  unfold scores. rewrite Hscores. now destruct (df_records df).
Qed.

Lemma sample_dicts_id (l : list EvaluationSample) :
  map (fun s => {| question := question s;
                   answer := answer s;
                   contexts := contexts s;
                   ground_truth := ground_truth s |}) l = l.
Proof.
  induction l as [| [q a c g] rest IH]; [reflexivity |].
  cbn [map question answer contexts ground_truth]. now rewrite IH.
Qed.

Lemma batch_size_ok (request : BatchEvaluationRequest) :
  (100 <? length (samples request))%nat = false ->
  (length (samples request) =? 0)%nat = false ->
  (1 <= length (samples request) <= 100)%nat.
Proof.
  intros H1 H2. apply Nat.ltb_ge in H1. apply Nat.eqb_neq in H2. lia.
Qed.

(** A 200 from the batch endpoint: the batch size was within bounds, the
    request named its metrics, the library answered, and the response was
    assembled from that answer. *)
Lemma evaluate_batch_200 (request : BatchEvaluationRequest) (w w' : World)
    (resp : BatchEvaluationResult) :
  evaluate_batch ext cfg request w = (Http200 resp, w') ->
  exists (names : list string) (df : DataFrame) (per_metric : dict value)
         (overall : option float),
    (1 <= length (samples request) <= 100)%nat
    /\ batch_metrics request = Some names
    /\ ragas_evaluate ext (map to_single_turn (samples request))
         (known_metrics names (get_llm cfg)) = Return df
    /\ aggregate_loop df names [] = Return per_metric
    /\ mean_of present (dict_values per_metric) = Return overall
    /\ aggregate resp = dict_set "overall" (value_of_overall overall) per_metric
    /\ results resp = map _clean_dict (df_records df)
    /\ total_samples resp = length (samples request)
    /\ events w'
       = (events w ++ unknown_warnings names
          ++ [starting_event (samples request) (Some names);
              CallEvaluate (map to_single_turn (samples request))
                (known_metrics names (get_llm cfg));
              completed_event (samples request) (measured ext w)])%list.
Proof.
  unfold evaluate_batch.
  destruct (100 <? length (samples request))%nat eqn:Hmax; [discriminate |].
  destruct (length (samples request) =? 0)%nat eqn:Hmin; [discriminate |].
  unfold or_500, bind. rewrite sample_dicts_id.
  destruct (run_evaluation ext cfg (samples request) (batch_metrics request) w)
    as [[ev | e] w1] eqn:Hrun.
  2:{ destruct (logger_error _ _ w1); discriminate. }
  apply run_evaluation_Return in Hrun
    as (names & df & Hnames & _ & Hlib & Hscores & Hagg & _ & Hw1).
  rewrite mean_expression.
  rewrite (List.filter_ext _ _ is_not_None_present).
  change (mean_or_absent (List.filter ?keep ?xs)) with (mean_of keep xs).
  unfold lift, now, pure.
  destruct (mean_of present (dict_values (ev_aggregate ev))) as [overall | e] eqn:Hmean.
  2:{ destruct (logger_error _ _ w1); discriminate. }
  intros H. injection H as <- <-. cbn [aggregate results total_samples].
  exists names, df, (ev_aggregate ev), overall.
  split; [now apply batch_size_ok |].
  repeat (split; [assumption || reflexivity |]). now rewrite Hw1.
Qed.

End Handlers.
(** *** The metric factory and the calls into the library *)

Lemma known_metrics_filter (names : list string) (llm : LLM) :
  known_metrics names llm = known_metrics (List.filter in_catalog names) llm.
Proof.
  induction names as [| n rest IH]; [reflexivity |].
  cbn [known_metrics flat_map List.filter]. fold (known_metrics rest llm).
  rewrite dict_get_catalog.
  destruct (dict_get n AVAILABLE_METRICS) as [c |] eqn:E.
  - cbn [known_metrics flat_map]. rewrite E. cbn [app]. f_equal. exact IH.
  - exact IH.
Qed.

Lemma unknown_warnings_filter (names : list string) :
  unknown_warnings names
  = map unknown_warning (List.filter (fun n => negb (in_catalog n)) names).
Proof.
  induction names as [| n rest IH]; [reflexivity |].
  cbn [unknown_warnings flat_map List.filter]. fold (unknown_warnings rest).
  rewrite dict_get_catalog.
  destruct (dict_get n AVAILABLE_METRICS) as [c |]; cbn [negb map app].
  - exact IH.
  - unfold unknown_warning at 1. f_equal. exact IH.
Qed.

Lemma calls_of_run (es : list event) (names : list string) (start done : event)
    (dataset : list SingleTurnSample) (ms : list Metric) :
  is_call start = false -> is_call done = false ->
  calls (es ++ unknown_warnings names ++ [start; CallEvaluate dataset ms; done])%list
  = (calls es ++ [CallEvaluate dataset ms])%list.
Proof.
  intros Hs Hd. rewrite !calls_app, calls_unknown_warnings.
  unfold calls at 2. cbn [List.filter is_call]. now rewrite Hs, Hd.
Qed.

Section Failures.

Variable ext : Externals.
Variable cfg : Config.

Lemma evaluate_single_no_valid_metrics (request : SingleEvaluationRequest)
    (names : list string) (w : World) :
  single_metrics request = Some names ->
  forallb (fun n => negb (in_catalog n)) names = true ->
  exists w',
    evaluate_single ext cfg request w
    = (HTTPException 500 "No valid metrics specified", w')
    /\ calls (events w') = calls (events w).
Proof.
  intros Hnames Hall. eexists. split.
  - unfold evaluate_single, or_500, bind.
    rewrite Hnames, (run_evaluation_no_valid_metrics _ _ _ _ _ Hall). reflexivity.
  - cbn [logged ticked events logger_error emit snd].
    now rewrite !calls_app, calls_unknown_warnings, !app_nil_r.
Qed.

Lemma evaluate_batch_no_valid_metrics (request : BatchEvaluationRequest)
    (names : list string) (w : World) :
  (1 <= length (samples request) <= 100)%nat ->
  batch_metrics request = Some names ->
  forallb (fun n => negb (in_catalog n)) names = true ->
  exists w',
    evaluate_batch ext cfg request w
    = (HTTPException 500 "No valid metrics specified", w')
    /\ calls (events w') = calls (events w).
Proof.
  intros [Hmin Hmax] Hnames Hall. eexists. split.
  - unfold evaluate_batch.
    destruct (Nat.ltb_spec 100 (length (samples request))) as [Hgt |_]; [lia |].
    destruct (Nat.eqb_spec (length (samples request)) 0) as [Hz |_]; [lia |].
    unfold or_500, bind.
    rewrite Hnames, (run_evaluation_no_valid_metrics _ _ _ _ _ Hall). reflexivity.
  - cbn [logged ticked events logger_error emit snd].
    now rewrite !calls_app, calls_unknown_warnings, !app_nil_r.
Qed.

End Failures.

(** *** The aggregate loop *)

Lemma dict_set_Forall {V} (Q : string * V -> Prop) (k : string) (v : V) (d : dict V) :
  Q (k, v) -> Forall Q d -> Forall Q (dict_set k v d).
Proof.
  intros Hkv. induction 1 as [| [k' v'] rest Hhd Htl IH]; cbn [dict_set].
  - now constructor.
  - destruct (String.eqb_spec k k') as [<- | _]; constructor; auto.
Qed.

Lemma aggregate_loop_Forall (Q : string * value -> Prop) (df : DataFrame)
    (names : list string) :
  (forall name m,
      In name names -> str_in name (df_columns df) = true ->
      df_mean df name = Return m -> Q (name, _clean_float (VFloat m))) ->
  forall acc agg,
    Forall Q acc -> aggregate_loop df names acc = Return agg -> Forall Q agg.
Proof.
  induction names as [| name rest IH]; intros Hstep acc agg Hacc Hrun;
    cbn [aggregate_loop] in Hrun.
  - now injection Hrun as <-.
  - assert (Hrest : forall n m, In n rest -> str_in n (df_columns df) = true ->
                                df_mean df n = Return m ->
                                Q (n, _clean_float (VFloat m)))
      by (intros n m Hin; apply Hstep; now right).
    destruct (str_in name (df_columns df)) eqn:Hcol.
    + destruct (df_mean df name) as [m | e] eqn:Hmean; [| discriminate].
      cbn [rbind] in Hrun.
      apply (IH Hrest _ _ (dict_set_Forall Q _ _ _
                             (Hstep name m (or_introl eq_refl) Hcol Hmean) Hacc) Hrun).
    + exact (IH Hrest _ _ Hacc Hrun).
Qed.

Lemma dict_get_absent_key {V} (k : string) (d : dict V) :
  Forall (fun kv => fst kv <> k) d -> dict_get k d = None.
Proof.
  induction 1 as [| [k' v'] rest Hhd _ IH]; [reflexivity |].
  cbn [dict_get]. cbn [fst] in Hhd.
  destruct (String.eqb_spec k k'); [congruence | exact IH].
Qed.

(** Requested names that are not columns leave no trace in the loop. *)
Lemma aggregate_loop_skips_missing (df : DataFrame) (names : list string) :
  forall acc,
    aggregate_loop df names acc
    = aggregate_loop df (List.filter (fun m => str_in m (df_columns df)) names) acc.
Proof.
  induction names as [| name rest IH]; intros acc; [reflexivity |].
  cbn [aggregate_loop List.filter].
  destruct (str_in name (df_columns df)) eqn:Hcol.
  - cbn [aggregate_loop]. rewrite Hcol.
    destruct (df_mean df name) as [m | e]; [| reflexivity].
    cbn [rbind]. apply IH.
  - apply IH.
Qed.

Lemma aggregate_keys_are_columns (df : DataFrame) (names : list string) (agg : dict value) :
  aggregate_loop df names [] = Return agg ->
  forall m, str_in m (df_columns df) = false -> dict_get m agg = None.
Proof.
  intros Hrun m Hm. apply dict_get_absent_key.
  apply (aggregate_loop_Forall (fun kv => str_in (fst kv) (df_columns df) = true)
           df names) in Hrun; [| now intros | constructor].
  eapply List.Forall_impl; [| exact Hrun].
  intros [k v] Hk Heq. cbn [fst] in *. congruence.
Qed.

Lemma clean_float_scrubbed (v : value) : _clean_float v = scrubbed v.
Proof.
  destruct v as [| b | z | f | s | l]; reflexivity.
Qed.

Lemma clean_dict_scrubbed (d : dict value) : _clean_dict d = scrub_record d.
Proof.
  unfold _clean_dict, scrub_record. apply map_ext. intros [k v]. cbn [fst snd].
  destruct (isinstance_int_float v) eqn:E; [now rewrite clean_float_scrubbed |].
  destruct v; try discriminate; reflexivity.
Qed.

Lemma aggregate_entries_scrubbed (df : DataFrame) (names : list string) (agg : dict value) :
  aggregate_loop df names [] = Return agg ->
  Forall (fun kv => exists m, df_mean df (fst kv) = Return m
                              /\ snd kv = scrubbed (VFloat m)) agg.
Proof.
  intros Hrun.
  apply (aggregate_loop_Forall _ df names) with (acc := []) (agg := agg);
    [| constructor | exact Hrun].
  intros name m _ _ Hmean. exists m. cbn [fst snd].
  now rewrite clean_float_scrubbed.
Qed.

(** *** Where the values under the requested names come from *)

Lemma str_in_In (x : string) (xs : list string) : str_in x xs = true <-> In x xs.
Proof.
  unfold str_in. rewrite existsb_exists. split.
  - intros (y & Hy & Heq). apply String.eqb_eq in Heq. now subst.
  - intros H. exists x. split; [exact H | apply String.eqb_refl].
Qed.






(* ====================================================================== *)
(** ** The service contract *)
(* ====================================================================== *)



(** C3. A batch of no sample, or of more than 100 samples, is answered
    with HTTP 400 and the world is left as it was: nothing is logged, the
    clock is not read, and the evaluation library is not called. *)
Theorem evaluate_batch_rejects_bad_size (ext : Externals) (cfg : Config)
    (request : BatchEvaluationRequest) (w : World) :
  (length (samples request) = 0 \/ 100 < length (samples request))%nat ->
  exists detail : string,
    evaluate_batch ext cfg request w = (HTTPException 400 detail, w)
    /\ calls (events (snd (evaluate_batch ext cfg request w))) = calls (events w).
Proof.
  intros Hsize. unfold evaluate_batch.
  destruct (Nat.ltb_spec 100 (length (samples request))) as [Hgt | Hle].
  - eexists; split; reflexivity.
  - destruct (Nat.eqb_spec (length (samples request)) 0) as [Hz | Hnz].
    + eexists; split; reflexivity.
    + lia.
Qed.

Lemma evaluate_batch_rejects_bad_size_witness :
  exists detail : string,
    evaluate_batch stub_ext stub_cfg
      {| samples := []; batch_metrics := Some default_metrics |} fresh
    = (HTTPException 400 detail, fresh)
    /\ calls (events (snd (evaluate_batch stub_ext stub_cfg
                             {| samples := []; batch_metrics := Some default_metrics |}
                             fresh)))
       = calls (events fresh).
Proof.
  apply (evaluate_batch_rejects_bad_size stub_ext stub_cfg
           {| samples := []; batch_metrics := Some default_metrics |} fresh).
  left. reflexivity.
Defined.

Lemma stub_one_row_per_sample : one_row_per_sample stub_ext.
Proof.
  intros dataset ms df H. cbn [ragas_evaluate stub_ext] in H.
  unfold stub_evaluate in H. injection H as <-.
  cbn [df_records]. apply length_map.
Qed.

(** C6. Given a library that returns one row per sample of the dataset
    it is handed, a batch of [N] samples with [1 <= N <= 100] that is
    answered with 200 reports [total_samples = N] and carries [N] results. *)
Theorem evaluate_batch_counts (ext : Externals) (cfg : Config)
    (request : BatchEvaluationRequest) (w w' : World) (resp : BatchEvaluationResult) :
  one_row_per_sample ext ->
  (1 <= length (samples request) <= 100)%nat ->
  evaluate_batch ext cfg request w = (Http200 resp, w') ->
  total_samples resp = length (samples request)
  /\ length (results resp) = length (samples request).
Proof.
  intros Hrows _ H200.
  apply evaluate_batch_200 in H200
    as (names & df & per_metric & overall & _ & _ & Hlib & _ & _ & _ & Hres & Htotal & _).
  split; [exact Htotal |].
  rewrite Hres, length_map, (Hrows _ _ _ Hlib). apply length_map.
Qed.

Lemma evaluate_batch_counts_witness :
  exists (resp : BatchEvaluationResult) (w' : World),
    evaluate_batch stub_ext stub_cfg paris_batch fresh = (Http200 resp, w')
    /\ total_samples resp = 2%nat
    /\ length (results resp) = 2%nat.
Proof.
  eexists. eexists. split; [vm_compute; reflexivity |].
  eapply (evaluate_batch_counts stub_ext stub_cfg paris_batch fresh).
  - exact stub_one_row_per_sample.
  - simpl. lia.
  - vm_compute. reflexivity.
Defined.

(** C7, as the code has it.  The single-turn record handed to the library
    carries a reference exactly when the sample's ground truth is a
    non-empty string, and the reference is then that string; without a
    ground truth, or with the empty string, the reference stays unset.  The
    other three fields are copied. *)
Theorem reference_set_iff_ground_truth_non_empty (s : EvaluationSample) :
  (forall g, reference (to_single_turn s) = Some g <-> ground_truth s = Some g /\ g <> "")
  /\ (ground_truth s = None -> reference (to_single_turn s) = None)
  /\ (ground_truth s = Some "" -> reference (to_single_turn s) = None)
  /\ user_input (to_single_turn s) = question s
  /\ response (to_single_turn s) = answer s
  /\ retrieved_contexts (to_single_turn s) = contexts s.
Proof.
  unfold to_single_turn, truthy_opt_str.
  destruct (ground_truth s) as [g0 |];
    [destruct (String.eqb_spec g0 "") as [-> | Hne] |];
    cbn [negb reference user_input response retrieved_contexts];
    (split; [intros g; split | repeat split; congruence]).
  - discriminate.
  - intros [H Hg]. congruence.
  - intros H. split; congruence.
  - intros [H _]. exact H.
  - discriminate.
  - intros [H _]. discriminate.
Qed.

Lemma reference_set_iff_ground_truth_non_empty_witness :
  reference (to_single_turn paris_with_truth) = Some "Paris"
  /\ reference (to_single_turn paris) = None
  /\ reference (to_single_turn empty_truth) = None.
Proof.
  destruct (reference_set_iff_ground_truth_non_empty paris_with_truth) as (Hset & _).
  destruct (reference_set_iff_ground_truth_non_empty paris) as (_ & Hnone & _).
  destruct (reference_set_iff_ground_truth_non_empty empty_truth) as (_ & _ & Hempty & _).
  split; [apply Hset; split; [reflexivity | discriminate] |].
  split; [apply Hnone; reflexivity | apply Hempty; reflexivity].
Defined.

(** C7, as stated, fails: with the empty string as ground truth, a ground
    truth is supplied and the reference is left unset. *)
Lemma reference_unset_for_empty_ground_truth :
  ~ (reference (to_single_turn empty_truth) <> None <-> ground_truth empty_truth <> None).
Proof.
  intros [_ H]. apply H; [discriminate | reflexivity].
Qed.

(** C8. The selector returns the hosted client exactly when the provider
    flag is ["openai"] and the API key is non-empty; with the hosted
    provider selected and no key it returns the local client built from the
    Ollama settings, as it does for any other provider.  It is a total
    function: no configuration makes it fail. *)
Theorem get_llm_hosted_iff_provider_and_key (cfg : Config) :
  (is_hosted (get_llm cfg) = true
     <-> LLM_PROVIDER cfg = "openai" /\ OPENAI_API_KEY cfg <> "")
  /\ (LLM_PROVIDER cfg = "openai" /\ OPENAI_API_KEY cfg <> ""
        -> get_llm cfg = ChatOpenAI "gpt-4o-mini" 0 (OPENAI_API_KEY cfg))
  /\ (LLM_PROVIDER cfg = "openai" -> OPENAI_API_KEY cfg = ""
        -> get_llm cfg = ChatOllama (OLLAMA_MODEL cfg) (OLLAMA_BASE_URL cfg) 0)
  /\ (LLM_PROVIDER cfg <> "openai"
        -> get_llm cfg = ChatOllama (OLLAMA_MODEL cfg) (OLLAMA_BASE_URL cfg) 0).
Proof.
  unfold get_llm.
  destruct (String.eqb_spec (LLM_PROVIDER cfg) "openai") as [Hp | Hp];
    destruct (truthy_str (OPENAI_API_KEY cfg)) eqn:Hk; cbn [andb is_hosted].
  - apply truthy_str_spec in Hk. repeat split; try tauto; try congruence.
  - assert (Hk' : ~ OPENAI_API_KEY cfg <> "").
    { intro H. apply truthy_str_spec in H. congruence. }
    repeat split; try tauto; try congruence; intros; try discriminate.
  - repeat split; try tauto; try congruence; intros; try discriminate.
  - repeat split; try tauto; try congruence; intros; try discriminate.
Qed.

Lemma get_llm_hosted_iff_provider_and_key_witness :
  get_llm (load_config {[ "RAGAS_LLM_PROVIDER" := "openai"; "OPENAI_API_KEY" := "sk-test" ]})
  = ChatOpenAI "gpt-4o-mini" 0 "sk-test"
  /\ get_llm (load_config {[ "RAGAS_LLM_PROVIDER" := "openai" ]})
     = ChatOllama "llama3.2" "http://localhost:11434" 0.
Proof.
  destruct (get_llm_hosted_iff_provider_and_key
              (load_config {[ "RAGAS_LLM_PROVIDER" := "openai";
                              "OPENAI_API_KEY" := "sk-test" ]}))
    as (_ & Hhosted & _).
  destruct (get_llm_hosted_iff_provider_and_key
              (load_config {[ "RAGAS_LLM_PROVIDER" := "openai" ]}))
    as (_ & _ & Hlocal & _).
  split.
  - apply Hhosted. split; vm_compute; [reflexivity | discriminate].
  - apply Hlocal; vm_compute; reflexivity.
Defined.

(** C9. The health endpoint answers 200 in every world and under every
    configuration, lists exactly the four catalog keys, in catalog order,
    and leaves the world as it was: it takes no library as a parameter,
    reads no clock and makes no call. *)
Theorem health_check_lists_catalog (cfg : Config) (w : World) :
  exists resp : HealthResponse,
    health_check cfg w = (Http200 resp, w)
    /\ available_metrics resp
       = ["faithfulness"; "answer_relevancy"; "context_precision"; "context_recall"]
    /\ status resp = "healthy"
    /\ llm_provider resp = LLM_PROVIDER cfg.
Proof.
  eexists. split; [reflexivity |]. repeat split.
Qed.

(** C10. In a batch answered with 200, a name that is not a column of the
    library's table has no key in the per-metric aggregate the invoker
    built, and (unless the name is ["overall"], the key of the overall
    mean) none in the returned aggregate either; the per-metric aggregate,
    and with it the overall mean, is the one obtained from the requested
    names that are columns. *)
Theorem missing_column_omitted_from_aggregate (ext : Externals) (cfg : Config)
    (request : BatchEvaluationRequest) (w w' : World) (resp : BatchEvaluationResult) :
  evaluate_batch ext cfg request w = (Http200 resp, w') ->
  exists (names : list string) (df : DataFrame) (per_metric : dict value)
         (overall : option float),
    batch_metrics request = Some names
    /\ ragas_evaluate ext (map to_single_turn (samples request))
         (known_metrics names (get_llm cfg)) = Return df
    /\ aggregate_loop df names [] = Return per_metric
    /\ aggregate_loop df (List.filter (fun m => str_in m (df_columns df)) names) []
       = Return per_metric
    /\ aggregate resp = dict_set "overall" (value_of_overall overall) per_metric
    /\ mean_of present (dict_values per_metric) = Return overall
    /\ (forall m, str_in m (df_columns df) = false ->
          dict_get m per_metric = None
          /\ (m <> "overall" -> dict_get m (aggregate resp) = None)).
Proof.
  intros H200.
  apply evaluate_batch_200 in H200
    as (names & df & per_metric & overall & _ & Hnames & Hlib & Hagg & Hmean & Hresp & _).
  exists names, df, per_metric, overall.
  split; [exact Hnames |]. split; [exact Hlib |]. split; [exact Hagg |].
  split; [now rewrite <- aggregate_loop_skips_missing |].
  split; [exact Hresp |]. split; [exact Hmean |].
  intros m Hm.
  pose proof (aggregate_keys_are_columns _ _ _ Hagg m Hm) as Hnone.
  split; [exact Hnone |].
  intros Hne. now rewrite Hresp, dict_get_set_other.
Qed.

Lemma missing_column_omitted_from_aggregate_witness :
  exists (resp : BatchEvaluationResult) (w' : World),
    evaluate_batch stub_ext stub_cfg paris_batch fresh = (Http200 resp, w')
    /\ dict_get "context_precision" (aggregate resp) = None.
Proof.
  eexists. eexists. split; [vm_compute; reflexivity |].
  edestruct (missing_column_omitted_from_aggregate stub_ext stub_cfg paris_batch fresh)
    as (names & df & per_metric & overall & Hnames & Hlib & _ & _ & _ & _ & Hmissing);
    [vm_compute; reflexivity |].
  injection Hnames as <-.
  cbn [ragas_evaluate stub_ext] in Hlib. unfold stub_evaluate in Hlib.
  injection Hlib as <-.
  apply (Hmissing "context_precision"); [reflexivity | discriminate].
Defined.

(* ====================================================================== *)
(** ** Further properties of the service *)
(* ====================================================================== *)

(** *** Configuration and the health report *)

(** X1. Read from the process environment, the selector returns the
    hosted client exactly when [RAGAS_LLM_PROVIDER] is set to ["openai"] and
    [OPENAI_API_KEY] is set to a non-empty string.  In particular an API
    key alone does not select it: an unset provider means ["ollama"]. *)
Theorem get_llm_from_environment (environ : gmap string string) :
  (is_hosted (get_llm (load_config environ)) = true
     <-> environ !! "RAGAS_LLM_PROVIDER" = Some "openai"
         /\ exists key, environ !! "OPENAI_API_KEY" = Some key /\ key <> "")
  /\ (environ !! "RAGAS_LLM_PROVIDER" = None ->
      get_llm (load_config environ)
      = ChatOllama (getenv environ "OLLAMA_MODEL" "llama3.2")
                   (getenv environ "OLLAMA_BASE_URL" "http://localhost:11434") 0).
Proof.
  unfold get_llm, load_config, getenv. cbn [LLM_PROVIDER OPENAI_API_KEY OLLAMA_MODEL
                                             OLLAMA_BASE_URL].
  destruct (environ !! "RAGAS_LLM_PROVIDER") as [p |].
  - split; [| discriminate].
    destruct (String.eqb_spec p "openai") as [-> | Hp]; cbn [andb].
    + destruct (environ !! "OPENAI_API_KEY") as [k |].
      * destruct (truthy_str k) eqn:Hk; cbn [is_hosted].
        -- apply truthy_str_spec in Hk. split; [| reflexivity].
           intros _. split; [reflexivity | now exists k].
        -- split; [discriminate |]. intros [_ (k' & Hk' & Hne)].
           injection Hk' as ->. apply truthy_str_spec in Hne. congruence.
      * cbn [truthy_str String.eqb negb is_hosted].
        split; [discriminate | intros [_ (k' & Hk' & _)]; discriminate].
    + cbn [is_hosted]. split; [discriminate | intros [H _]; congruence].
  - cbn [String.eqb andb is_hosted]. split; [| reflexivity].
    split; [discriminate | intros [H _]; discriminate].
Qed.

Lemma get_llm_from_environment_witness :
  get_llm (load_config {[ "OPENAI_API_KEY" := "sk-test" ]})
  = ChatOllama "llama3.2" "http://localhost:11434" 0.
Proof.
  destruct (get_llm_from_environment {[ "OPENAI_API_KEY" := "sk-test" ]}) as [_ Hunset].
  apply Hunset. vm_compute. reflexivity.
Defined.

(** X2. The model name the health endpoint reports is the model of the
    client the evaluations use when the provider is ["ollama"], or is
    ["openai"] with a key.  For any other provider value, and for
    ["openai"] without a key, it reports ["gpt-4o-mini"] while the
    evaluations use the Ollama model: the two agree only if that model
    happens to be named ["gpt-4o-mini"]. *)
Theorem health_check_model_vs_client (cfg : Config) (w : World) :
  exists resp : HealthResponse,
    health_check cfg w = (Http200 resp, w)
    /\ llm_provider resp = LLM_PROVIDER cfg
    /\ (llm_model resp = llm_model_name (get_llm cfg)
        <-> LLM_PROVIDER cfg = "ollama"
            \/ (LLM_PROVIDER cfg = "openai" /\ OPENAI_API_KEY cfg <> "")
            \/ OLLAMA_MODEL cfg = "gpt-4o-mini").
Proof.
  eexists. split; [reflexivity |]. split; [reflexivity |].
  cbn [llm_model]. unfold get_llm.
  destruct (String.eqb_spec (LLM_PROVIDER cfg) "ollama") as [Ho | Ho].
  - rewrite Ho. cbn [String.eqb andb llm_model_name]. tauto.
  - destruct (String.eqb_spec (LLM_PROVIDER cfg) "openai") as [Hp | Hp];
      destruct (truthy_str (OPENAI_API_KEY cfg)) eqn:Hk; cbn [andb llm_model_name].
    + apply truthy_str_spec in Hk. tauto.
    + assert (Hk' : ~ OPENAI_API_KEY cfg <> "")
        by (intro H; apply truthy_str_spec in H; congruence).
      split; [intros <-; tauto | intros [H | [[_ H] | H]]; congruence || tauto].
    + split; [intros <-; tauto | intros [H | [[H _] | H]]; congruence].
    + split; [intros <-; tauto | intros [H | [[H _] | H]]; congruence].
Qed.

Lemma health_check_model_vs_client_witness :
  exists resp : HealthResponse,
    health_check (load_config {[ "RAGAS_LLM_PROVIDER" := "openai" ]}) fresh
    = (Http200 resp, fresh)
    /\ llm_model resp = "gpt-4o-mini"
    /\ llm_model_name (get_llm (load_config {[ "RAGAS_LLM_PROVIDER" := "openai" ]}))
       = "llama3.2".
Proof.
  destruct (health_check_model_vs_client
              (load_config {[ "RAGAS_LLM_PROVIDER" := "openai" ]}) fresh)
    as (resp & Hresp & _ & _).
  exists resp. split; [exact Hresp |].
  injection Hresp as <-. split; vm_compute; reflexivity.
Defined.

(** *** The metric factory and the cleaning step *)

Lemma known_metrics_length (names : list string) (llm : LLM) :
  length (known_metrics names llm) = length (List.filter in_catalog names).
Proof.
  induction names as [| n rest IH]; [reflexivity |].
  cbn [known_metrics flat_map List.filter]. fold (known_metrics rest llm).
  rewrite dict_get_catalog, length_app.
  destruct (dict_get n AVAILABLE_METRICS); cbn [length]; now rewrite IH.
Qed.

Lemma known_metrics_llm (names : list string) (llm : LLM) :
  Forall (fun m => metric_llm m = llm) (known_metrics names llm).
Proof.
  induction names as [| n rest IH]; [constructor |].
  cbn [known_metrics flat_map]. fold (known_metrics rest llm).
  destruct (dict_get n AVAILABLE_METRICS); [constructor; [reflexivity |] |]; exact IH.
Qed.

Lemma filter_partition_length {A} (p : A -> bool) (l : list A) :
  (length (List.filter p l) + length (List.filter (fun x => negb (p x)) l))%nat = length l.
Proof.
  induction l as [| x rest IH]; [reflexivity |].
  cbn [List.filter]. destruct (p x); cbn [negb length]; lia.
Qed.

(** X3. For a list of identifiers the metric factory never fails and
    accounts for every identifier supplied: it returns one instance per
    occurrence of a catalog identifier (a repeated identifier is
    instantiated again), each bound to the client it was given, logs one
    warning per other identifier, and does not read the clock. *)
Theorem get_metrics_accounts_for_every_name (names : list string) (llm : LLM) (w : World) :
  exists (ms : list Metric) (warnings : list event),
    get_metrics (Some names) llm w
    = (Return ms, {| events := (events w ++ warnings)%list; clock_reads := clock_reads w |})
    /\ length ms = length (List.filter in_catalog names)
    /\ length warnings = length (List.filter (fun n => negb (in_catalog n)) names)
    /\ (length ms + length warnings)%nat = length names
    /\ Forall (fun m => metric_llm m = llm) ms
    /\ calls warnings = [].
Proof.
  exists (known_metrics names llm), (unknown_warnings names).
  split; [apply get_metrics_spec |].
  split; [apply known_metrics_length |].
  assert (Hw : length (unknown_warnings names)
               = length (List.filter (fun n => negb (in_catalog n)) names))
    by (now rewrite unknown_warnings_filter, length_map).
  split; [exact Hw |].
  split; [rewrite Hw, known_metrics_length; apply filter_partition_length |].
  split; [apply known_metrics_llm | apply calls_unknown_warnings].
Qed.

Lemma clean_dict_applies_clean_float (d : dict value) :
  _clean_dict d = map (fun kv => (fst kv, _clean_float (snd kv))) d.
Proof.
  unfold _clean_dict. apply map_ext. intros [k v]. cbn [fst snd].
  now destruct v.
Qed.

Lemma non_finite_scrubbed (v : value) : non_finite (scrubbed v) = false.
Proof.
  unfold scrubbed. destruct (non_finite v) eqn:E; [reflexivity | exact E].
Qed.

(** X4. Cleaning a record keeps its keys, in order, and replaces every
    value [v] by [_clean_float v] (the [isinstance] guard makes no
    difference, for [_clean_float] already returns booleans, integers,
    strings and lists as they are); the cleaned record holds no NaN and no
    infinity at top level, and cleaning it again changes nothing. *)
Theorem clean_dict_invariants (d : dict value) :
  dict_keys (_clean_dict d) = dict_keys d
  /\ dict_values (_clean_dict d) = map _clean_float (dict_values d)
  /\ (forall k, dict_get k (_clean_dict d) = option_map _clean_float (dict_get k d))
  /\ Forall (fun v => non_finite v = false) (dict_values (_clean_dict d))
  /\ _clean_dict (_clean_dict d) = _clean_dict d.
Proof.
  rewrite !clean_dict_applies_clean_float. unfold dict_keys, dict_values.
  rewrite !map_map. cbn [fst snd].
  split; [reflexivity |]. split; [reflexivity |]. split; [| split].
  - intros k. induction d as [| [k' v] rest IH]; [reflexivity |].
    cbn [map dict_get fst snd]. destruct (String.eqb k k'); [reflexivity | exact IH].
  - induction d as [| [k' v] rest IH]; [constructor |].
    cbn [map snd]. constructor; [| exact IH].
    rewrite clean_float_scrubbed. apply non_finite_scrubbed.
  - apply map_ext. intros [k v]. cbn [fst snd]. f_equal.
    rewrite !clean_float_scrubbed. unfold scrubbed at 1.
    now rewrite non_finite_scrubbed.
Qed.

(** X5. The metric catalog is one and the same everywhere: the keys that
    [GET /metrics] documents are the keys of [AVAILABLE_METRICS], which
    [GET /health] lists; an identifier is instantiated by the factory
    exactly when it is documented; and the documented default metrics are
    the defaults of the request models, all of them in the catalog, so that
    a request relying on the defaults yields three instances and no
    warning. *)
Theorem metric_catalog_is_consistent (cfg : Config) (llm : LLM) (w : World) :
  exists (info : MetricsInfo) (health : HealthResponse),
    get_metrics_info w = (Http200 info, w)
    /\ health_check cfg w = (Http200 health, w)
    /\ dict_keys (info_available_metrics info) = dict_keys AVAILABLE_METRICS
    /\ available_metrics health = dict_keys (info_available_metrics info)
    /\ (forall name,
          known_metrics [name] llm <> []
          <-> In name (dict_keys (info_available_metrics info)))
    /\ info_default_metrics info = default_metrics
    /\ Forall (fun name => In name (dict_keys (info_available_metrics info)))
         (info_default_metrics info)
    /\ get_metrics (Some (info_default_metrics info)) llm w
       = (Return [ {| metric_class := Faithfulness; metric_llm := llm |};
                   {| metric_class := ResponseRelevancy; metric_llm := llm |};
                   {| metric_class := LLMContextPrecisionWithoutReference;
                      metric_llm := llm |} ], w).
Proof.
  eexists. eexists. split; [reflexivity |]. split; [reflexivity |].
  split; [reflexivity |]. split; [reflexivity |]. split; [| split; [reflexivity | split]].
  - intros name. cbn [info_available_metrics dict_keys map fst].
    change ["faithfulness"; "answer_relevancy"; "context_precision"; "context_recall"]
      with catalog.
    rewrite <- str_in_In. fold (in_catalog name).
    cbn [known_metrics flat_map]. rewrite dict_get_catalog.
    destruct (dict_get name AVAILABLE_METRICS); cbn [app].
    + split; [reflexivity | discriminate].
    + split; [intros H; now contradiction H | discriminate].
  - cbn [info_default_metrics info_available_metrics dict_keys map fst].
    repeat (apply List.Forall_cons; [cbn [In]; auto 6 |]). apply List.Forall_nil.
  - rewrite get_metrics_spec. cbn [info_default_metrics].
    rewrite <- (logged_nil w) at 2. reflexivity.
Qed.

(** *** The handlers in closed form *)

Section Outcomes.

Variable ext : Externals.
Variable cfg : Config.

(** The invoker with its wrapper, for a list of names. *)
Lemma run_evaluation_Some (samples : list EvaluationSample) (names : list string)
    (w : World) :
  run_evaluation ext cfg samples (Some names) w
  = let ms := known_metrics names (get_llm cfg) in
    let ds := map to_single_turn samples in
    let failed := failed_event "RAGAS evaluation failed" in
    match ms with
    | [] =>
        let e := ValueError "No valid metrics specified" in
        (Raise e, ticked (logged w (unknown_warnings names ++ [failed e])) 1)
    | _ :: _ =>
        let before := (unknown_warnings names
                       ++ [starting_event samples (Some names); CallEvaluate ds ms])%list in
        match ragas_evaluate ext ds ms with
        | Raise e => (Raise e, ticked (logged w (before ++ [failed e])) 1)
        | Return df =>
            let after := (before ++ [completed_event samples (measured ext w)])%list in
            match aggregate_loop df names [] with
            | Raise e => (Raise e, ticked (logged w (after ++ [failed e])) 2)
            | Return agg =>
                (Return {| ev_scores := map _clean_dict (df_records df);
                           ev_aggregate := agg;
                           ev_evaluation_time_ms := measured ext w |},
                 ticked (logged w after) 2)
            end
        end
    end.
Proof.
  rewrite run_evaluation_unfold, run_evaluation_sync_unfold. cbv zeta.
  destruct (known_metrics names (get_llm cfg)) as [| m ms].
  - unfold logged, ticked. cbn [events clock_reads]. now rewrite <- app_assoc.
  - destruct (ragas_evaluate ext (map to_single_turn samples) (m :: ms)) as [df | e].
    + destruct (aggregate_loop df names []) as [agg | e];
        unfold logged, ticked; cbn [events clock_reads Nat.add];
        repeat rewrite <- app_assoc; reflexivity.
    + unfold logged, ticked; cbn [events clock_reads Nat.add].
      repeat rewrite <- app_assoc; reflexivity.
Qed.

Lemma run_evaluation_None (samples : list EvaluationSample) (w : World) :
  run_evaluation ext cfg samples None w
  = let e := TypeError "'NoneType' object is not iterable" in
    (Raise e, ticked (logged w [failed_event "RAGAS evaluation failed" e]) 1).
Proof. reflexivity. Qed.

Lemma evaluate_single_unfold (request : SingleEvaluationRequest) (w : World) :
  evaluate_single ext cfg request w
  = let failed := failed_event "Single evaluation failed" in
    match run_evaluation ext cfg [single_sample request] (single_metrics request) w with
    | (Raise e, w1) => (HTTPException 500 (exn_str e), logged w1 [failed e])
    | (Return ev, w1) =>
        match single_overall (first_record (ev_scores ev)) (single_metrics request) with
        | Raise e => (HTTPException 500 (exn_str e), logged w1 [failed e])
        | Return overall =>
            (Http200 {| metrics := first_record (ev_scores ev);
                        overall_score := overall;
                        evaluation_time_ms := ev_evaluation_time_ms ev;
                        timestamp := isoformat ext (clock ext (clock_reads w1)) |},
             ticked w1 1)
        end
    end.
Proof.
  unfold evaluate_single, or_500, bind. fold (single_sample request). cbv zeta.
  destruct (run_evaluation ext cfg [single_sample request] (single_metrics request) w)
    as [[ev | e] w1]; [| reflexivity].
  unfold single_overall, first_record.
  destruct (ev_scores ev) as [| first others];
    [destruct (valid_scores_of [] (single_metrics request)) as [vs | e]
    | destruct (valid_scores_of first (single_metrics request)) as [vs | e]];
    try reflexivity;
    cbn [rbind]; unfold lift; rewrite mean_expression;
    destruct (mean_or_absent vs) as [overall | e]; reflexivity.
Qed.

Lemma evaluate_batch_unfold (request : BatchEvaluationRequest) (w : World) :
  (1 <= length (samples request) <= 100)%nat ->
  evaluate_batch ext cfg request w
  = let failed := failed_event "Batch evaluation failed" in
    match run_evaluation ext cfg (samples request) (batch_metrics request) w with
    | (Raise e, w1) => (HTTPException 500 (exn_str e), logged w1 [failed e])
    | (Return ev, w1) =>
        match mean_of present (dict_values (ev_aggregate ev)) with
        | Raise e => (HTTPException 500 (exn_str e), logged w1 [failed e])
        | Return overall =>
            (Http200 {| results := ev_scores ev;
                        aggregate := dict_set "overall" (value_of_overall overall)
                                       (ev_aggregate ev);
                        total_samples := length (samples request);
                        batch_evaluation_time_ms := ev_evaluation_time_ms ev;
                        batch_timestamp := isoformat ext (clock ext (clock_reads w1)) |},
             ticked w1 1)
        end
    end.
Proof.
  intros [Hmin Hmax]. unfold evaluate_batch.
  destruct (Nat.ltb_spec 100 (length (samples request))) as [Hgt | _]; [lia |].
  destruct (Nat.eqb_spec (length (samples request)) 0) as [Hz | _]; [lia |].
  unfold or_500, bind. rewrite sample_dicts_id. cbv zeta.
  destruct (run_evaluation ext cfg (samples request) (batch_metrics request) w)
    as [[ev | e] w1]; [| reflexivity].
  unfold lift at 1. rewrite mean_expression.
  rewrite (List.filter_ext _ _ is_not_None_present).
  change (mean_or_absent (List.filter ?keep ?xs)) with (mean_of keep xs).
  unfold lift.
  destruct (mean_of present (dict_values (ev_aggregate ev))) as [overall | e]; reflexivity.
Qed.

End Outcomes.

(** *** Failures *)

Lemma known_metrics_some (names : list string) (llm : LLM) :
  existsb in_catalog names = true -> known_metrics names llm <> [].
Proof.
  intros Hex Hnil. apply known_metrics_nil_iff in Hnil.
  apply existsb_exists in Hex as (n & Hin & Hn).
  rewrite forallb_forall in Hnil. specialize (Hnil n Hin). now rewrite Hn in Hnil.
Qed.

Lemma aggregate_loop_Raise (df : DataFrame) (names : list string) (m : string) (e0 : exn) :
  In m names -> str_in m (df_columns df) = true -> df_mean df m = Raise e0 ->
  forall acc, exists (m' : string) (e : exn),
    aggregate_loop df names acc = Raise e
    /\ In m' names /\ str_in m' (df_columns df) = true /\ df_mean df m' = Raise e.
Proof.
  intros Hin Hcol Hmean.
  induction names as [| n rest IH]; intros acc; [destruct Hin |].
  cbn [aggregate_loop].
  destruct (str_in n (df_columns df)) eqn:Hn.
  - destruct (df_mean df n) as [mean | e] eqn:En.
    + cbn [rbind]. destruct Hin as [-> | Hin]; [congruence |].
      destruct (IH Hin (dict_set n (_clean_float (VFloat mean)) acc))
        as (m' & e & Hrun & Hin' & Hrest).
      exists m', e. split; [exact Hrun |]. split; [now right | exact Hrest].
    + exists n, e. cbn [rbind]. repeat split; [now left | assumption..].
  - destruct Hin as [-> | Hin]; [congruence |].
    destruct (IH Hin acc) as (m' & e & Hrun & Hin' & Hrest).
    exists m', e. split; [exact Hrun |]. split; [now right | exact Hrest].
Qed.

Section Failing.

Variable ext : Externals.
Variable cfg : Config.

(** X6. When the library raises, the single endpoint answers 500 with the
    exception's message as detail.  The library has been called once and is
    not called again; the failure is logged twice, by the invoker's wrapper
    and by the handler, and no completion is logged. *)
Theorem evaluate_single_library_failure (request : SingleEvaluationRequest)
    (names : list string) (e : exn) (w : World) :
  single_metrics request = Some names ->
  existsb in_catalog names = true ->
  ragas_evaluate ext [to_single_turn (single_sample request)]
    (known_metrics names (get_llm cfg)) = Raise e ->
  evaluate_single ext cfg request w
  = (HTTPException 500 (exn_str e),
     ticked (logged w (unknown_warnings names
                       ++ [starting_event [single_sample request] (Some names);
                           CallEvaluate [to_single_turn (single_sample request)]
                             (known_metrics names (get_llm cfg));
                           failed_event "RAGAS evaluation failed" e;
                           failed_event "Single evaluation failed" e])%list) 1).
Proof.
  intros Hnames Hsome Hlib.
  apply (known_metrics_some names (get_llm cfg)) in Hsome.
  rewrite evaluate_single_unfold, Hnames, run_evaluation_Some. cbv zeta.
  cbn [map] in *. rewrite Hlib.
  destruct (known_metrics names (get_llm cfg)) as [| m ms]; [congruence |].
  unfold logged, ticked. cbn [events clock_reads].
  now repeat rewrite <- app_assoc.
Qed.

(** X7. When the library raises on a batch within the size bounds, the
    batch endpoint answers 500 with the exception's message as detail,
    after one call for the whole batch, without retry and without partial
    results. *)
Theorem evaluate_batch_library_failure (request : BatchEvaluationRequest)
    (names : list string) (e : exn) (w : World) :
  (1 <= length (samples request) <= 100)%nat ->
  batch_metrics request = Some names ->
  existsb in_catalog names = true ->
  ragas_evaluate ext (map to_single_turn (samples request))
    (known_metrics names (get_llm cfg)) = Raise e ->
  evaluate_batch ext cfg request w
  = (HTTPException 500 (exn_str e),
     ticked (logged w (unknown_warnings names
                       ++ [starting_event (samples request) (Some names);
                           CallEvaluate (map to_single_turn (samples request))
                             (known_metrics names (get_llm cfg));
                           failed_event "RAGAS evaluation failed" e;
                           failed_event "Batch evaluation failed" e])%list) 1).
Proof.
  intros Hsize Hnames Hsome Hlib.
  apply (known_metrics_some names (get_llm cfg)) in Hsome.
  rewrite (evaluate_batch_unfold _ _ _ _ Hsize), Hnames, run_evaluation_Some. cbv zeta.
  rewrite Hlib.
  destruct (known_metrics names (get_llm cfg)) as [| m ms]; [congruence |].
  unfold logged, ticked. cbn [events clock_reads].
  now repeat rewrite <- app_assoc.
Qed.

(** X8. A request whose [metrics] field is [null] is answered with 500
    and the message of the [TypeError] raised when the factory iterates
    over it, by the single endpoint and, for a batch within the size
    bounds, by the batch endpoint; the library is not called. *)
Theorem null_metrics_rejected :
  (forall request w,
      single_metrics request = None ->
      evaluate_single ext cfg request w
      = (HTTPException 500 "'NoneType' object is not iterable",
         ticked (logged w [failed_event "RAGAS evaluation failed"
                             (TypeError "'NoneType' object is not iterable");
                           failed_event "Single evaluation failed"
                             (TypeError "'NoneType' object is not iterable")]) 1))
  /\ (forall request w,
        (1 <= length (samples request) <= 100)%nat ->
        batch_metrics request = None ->
        evaluate_batch ext cfg request w
        = (HTTPException 500 "'NoneType' object is not iterable",
           ticked (logged w [failed_event "RAGAS evaluation failed"
                               (TypeError "'NoneType' object is not iterable");
                             failed_event "Batch evaluation failed"
                               (TypeError "'NoneType' object is not iterable")]) 1)).
Proof.
  split.
  - intros request w Hnone.
    rewrite evaluate_single_unfold, Hnone, run_evaluation_None. cbv zeta.
    unfold logged, ticked. cbn [events clock_reads exn_str TypeError].
    now rewrite <- app_assoc.
  - intros request w Hsize Hnone.
    rewrite (evaluate_batch_unfold _ _ _ _ Hsize), Hnone, run_evaluation_None. cbv zeta.
    unfold logged, ticked. cbn [events clock_reads exn_str TypeError].
    now rewrite <- app_assoc.
Qed.

(** X9. The single endpoint raises no [HTTPException] other than 500.
    The batch endpoint raises 400 exactly for a batch of no sample or of
    more than 100 samples, leaving the world as it was, and otherwise no
    [HTTPException] other than 500; a 200 is only given to a batch within
    the bounds. *)
Theorem endpoint_status_codes :
  (forall request w status detail w',
      evaluate_single ext cfg request w = (HTTPException status detail, w') ->
      status = 500)
  /\ (forall request w status detail w',
        evaluate_batch ext cfg request w = (HTTPException status detail, w') ->
        (status = 400 /\ w' = w
         /\ (length (samples request) = 0 \/ 100 < length (samples request))%nat)
        \/ (status = 500 /\ (1 <= length (samples request) <= 100)%nat))
  /\ (forall request w resp w',
        evaluate_batch ext cfg request w = (Http200 resp, w') ->
        (1 <= length (samples request) <= 100)%nat).
Proof.
  split; [| split].
  - intros request w status detail w'. rewrite evaluate_single_unfold. cbv zeta.
    destruct (run_evaluation _ _ _ _ w) as [[ev | e] w1].
    + destruct (single_overall _ _) as [overall | e]; [discriminate |].
      intros H. now injection H as <- _ _.
    + intros H. now injection H as <- _ _.
  - intros request w status detail w'.
    destruct (Nat.ltb_spec 100 (length (samples request))) as [Hgt | Hle].
    { unfold evaluate_batch.
      destruct (Nat.ltb_spec 100 (length (samples request))) as [_ | Hle]; [| lia].
      intros Heq. injection Heq as <- _ <-. left. repeat split. now right. }
    destruct (Nat.eqb_spec (length (samples request)) 0) as [Hz | Hnz].
    { unfold evaluate_batch.
      destruct (Nat.ltb_spec 100 (length (samples request))) as [Hgt | _]; [lia |].
      rewrite Hz. cbn [Nat.eqb].
      intros Heq. injection Heq as <- _ <-. left. repeat split. now left. }
    assert (Hsize : (1 <= length (samples request) <= 100)%nat) by lia.
    rewrite (evaluate_batch_unfold _ _ _ _ Hsize). cbv zeta.
    destruct (run_evaluation _ _ _ _ w) as [[ev | e] w1].
    + destruct (mean_of _ _) as [overall | e]; [discriminate |].
      intros H. injection H as <- _ _. now right.
    + intros H. injection H as <- _ _. now right.
  - intros request w resp w' H200.
    apply evaluate_batch_200 in H200 as (_ & _ & _ & _ & Hsize & _). exact Hsize.
Qed.

End Failing.

Lemma evaluate_single_library_failure_witness :
  fst (evaluate_single (failing_ext backend_down) stub_cfg (paris_request paris_names) fresh)
  = HTTPException 500 "LLM backend unreachable".
Proof.
  rewrite (evaluate_single_library_failure (failing_ext backend_down) stub_cfg
             (paris_request paris_names) paris_names backend_down fresh);
    reflexivity.
Defined.

Lemma evaluate_batch_library_failure_witness :
  fst (evaluate_batch (failing_ext backend_down) stub_cfg paris_batch fresh)
  = HTTPException 500 "LLM backend unreachable".
Proof.
  rewrite (evaluate_batch_library_failure (failing_ext backend_down) stub_cfg paris_batch
             ["faithfulness"; "context_recall"; "context_precision"] backend_down fresh);
    [reflexivity | simpl; lia | reflexivity | reflexivity | reflexivity].
Defined.

Lemma null_metrics_rejected_witness :
  fst (evaluate_single stub_ext stub_cfg
         {| single_question := question paris;
            single_answer := answer paris;
            single_contexts := contexts paris;
            single_ground_truth := None;
            single_metrics := None |} fresh)
  = HTTPException 500 "'NoneType' object is not iterable"
  /\ fst (evaluate_batch stub_ext stub_cfg
            {| samples := [paris]; batch_metrics := None |} fresh)
     = HTTPException 500 "'NoneType' object is not iterable".
Proof.
  destruct (null_metrics_rejected stub_ext stub_cfg) as [Hsingle Hbatch].
  split.
  - rewrite Hsingle; reflexivity.
  - rewrite Hbatch; [reflexivity | simpl; lia | reflexivity].
Defined.

Lemma endpoint_status_codes_witness :
  (1 <= length (samples paris_batch) <= 100)%nat.
Proof.
  destruct (endpoint_status_codes stub_ext stub_cfg) as (_ & _ & H200).
  eapply (H200 paris_batch fresh). vm_compute. reflexivity.
Defined.

(** *** Calls into the library *)

Lemma calls_length_le (es fs : list event) :
  calls fs = [] -> length (calls (es ++ fs)%list) = length (calls es).
Proof. intros H. now rewrite calls_app, H, app_nil_r. Qed.

Section Calls.

Variable ext : Externals.
Variable cfg : Config.

(** Whatever the invoker does, it appends to the history, calls the
    library at most once and reads the clock at most twice. *)
Lemma run_evaluation_history (samples : list EvaluationSample)
    (requested : option (list string)) (w : World) :
  exists es : list event,
    events (snd (run_evaluation ext cfg samples requested w)) = (events w ++ es)%list
    /\ (length (calls es) <= 1)%nat
    /\ (clock_reads w <= clock_reads (snd (run_evaluation ext cfg samples requested w))
        <= 2 + clock_reads w)%nat.
Proof.
  destruct requested as [names |].
  - rewrite run_evaluation_Some. cbv zeta.
    destruct (known_metrics names (get_llm cfg)) as [| m ms].
    + eexists. cbn [snd ticked logged events clock_reads]. split; [reflexivity |].
      split; [| lia]. rewrite calls_app, calls_unknown_warnings. cbn. lia.
    + destruct (ragas_evaluate ext (map to_single_turn samples) (m :: ms)) as [df | e].
      * destruct (aggregate_loop df names []) as [agg | e];
          eexists; cbn [snd ticked logged events clock_reads];
          (split; [reflexivity |]); (split; [| lia]);
          rewrite !calls_app, calls_unknown_warnings; cbn; lia.
      * eexists. cbn [snd ticked logged events clock_reads]. split; [reflexivity |].
        split; [| lia]. rewrite !calls_app, calls_unknown_warnings. cbn. lia.
  - rewrite run_evaluation_None. cbv zeta.
    eexists. cbn [snd ticked logged events clock_reads]. split; [reflexivity |].
    split; [cbn; lia | lia].
Qed.

(** X10. Whatever the request, the library and the outcome, handling a
    single evaluation only appends to the history, calls the library at
    most once and reads the clock at most three times; and so does
    handling a batch, whatever the number of its samples. *)
Theorem at_most_one_library_call :
  (forall request w,
      exists es : list event,
        events (snd (evaluate_single ext cfg request w)) = (events w ++ es)%list
        /\ (length (calls es) <= 1)%nat
        /\ (clock_reads w <= clock_reads (snd (evaluate_single ext cfg request w))
            <= 3 + clock_reads w)%nat)
  /\ (forall request w,
        exists es : list event,
          events (snd (evaluate_batch ext cfg request w)) = (events w ++ es)%list
          /\ (length (calls es) <= 1)%nat
          /\ (clock_reads w <= clock_reads (snd (evaluate_batch ext cfg request w))
              <= 3 + clock_reads w)%nat).
Proof.
  split.
  - intros request w. rewrite evaluate_single_unfold. cbv zeta.
    destruct (run_evaluation_history [single_sample request] (single_metrics request) w)
      as (es & Hes & Hcalls & Hclock).
    destruct (run_evaluation ext cfg [single_sample request] (single_metrics request) w)
      as [[ev | e] w1]; cbn [snd] in *.
    + destruct (single_overall _ _) as [overall | e];
        cbn [snd ticked logged events clock_reads].
      * exists es. repeat split; [exact Hes | exact Hcalls | lia | lia].
      * exists (es ++ [failed_event "Single evaluation failed" e])%list.
        rewrite Hes, <- app_assoc. split; [reflexivity |].
        split; [now rewrite calls_length_le | lia].
    + cbn [snd ticked logged events clock_reads].
      exists (es ++ [failed_event "Single evaluation failed" e])%list.
      rewrite Hes, <- app_assoc. split; [reflexivity |].
      split; [now rewrite calls_length_le | lia].
  - intros request w.
    destruct (Nat.ltb_spec 100 (length (samples request))) as [Hgt | Hle].
    { unfold evaluate_batch.
      destruct (Nat.ltb_spec 100 (length (samples request))) as [_ | Hle]; [| lia].
      exists []. cbn [snd calls List.filter length]. rewrite app_nil_r.
      split; [reflexivity | lia]. }
    destruct (Nat.eqb_spec (length (samples request)) 0) as [Hz | Hnz].
    { unfold evaluate_batch.
      destruct (Nat.ltb_spec 100 (length (samples request))) as [Hgt | _]; [lia |].
      rewrite Hz. cbn [Nat.eqb].
      exists []. cbn [snd calls List.filter length]. rewrite app_nil_r.
      split; [reflexivity | lia]. }
    assert (Hsize : (1 <= length (samples request) <= 100)%nat) by lia.
    rewrite (evaluate_batch_unfold _ _ _ _ Hsize). cbv zeta.
    destruct (run_evaluation_history (samples request) (batch_metrics request) w)
      as (es & Hes & Hcalls & Hclock).
    destruct (run_evaluation ext cfg (samples request) (batch_metrics request) w)
      as [[ev | e] w1]; cbn [snd] in *.
    + destruct (mean_of _ _) as [overall | e];
        cbn [snd ticked logged events clock_reads].
      * exists es. repeat split; [exact Hes | exact Hcalls | lia | lia].
      * exists (es ++ [failed_event "Batch evaluation failed" e])%list.
        rewrite Hes, <- app_assoc. split; [reflexivity |].
        split; [now rewrite calls_length_le | lia].
    + cbn [snd ticked logged events clock_reads].
      exists (es ++ [failed_event "Batch evaluation failed" e])%list.
      rewrite Hes, <- app_assoc. split; [reflexivity |].
      split; [now rewrite calls_length_le | lia].
Qed.

(** X11. A batch answered with 200 has cost one call into the library,
    for the whole batch: the dataset of that call holds the single-turn
    record of every sample, in request order, and its metrics are the
    instances of the requested catalog identifiers. *)
Theorem evaluate_batch_calls_once (request : BatchEvaluationRequest) (w w' : World)
    (resp : BatchEvaluationResult) :
  evaluate_batch ext cfg request w = (Http200 resp, w') ->
  exists names : list string,
    batch_metrics request = Some names
    /\ calls (events w')
       = (calls (events w)
          ++ [CallEvaluate (map to_single_turn (samples request))
                (known_metrics (List.filter in_catalog names) (get_llm cfg))])%list
    /\ length (map to_single_turn (samples request)) = total_samples resp
    /\ clock_reads w' = (3 + clock_reads w)%nat.
Proof.
  intros H200. pose proof H200 as Hinv.
  apply evaluate_batch_200 in Hinv
    as (names & df & per_metric & overall & Hsize & Hnames & Hlib & Hagg & Hmean
        & _ & _ & Htotal & Hw').
  exists names. split; [exact Hnames |].
  split; [rewrite Hw', <- known_metrics_filter; now apply calls_of_run |].
  split; [now rewrite length_map, Htotal |].
  rewrite (evaluate_batch_unfold _ _ _ _ Hsize), Hnames, run_evaluation_Some in H200.
  cbv zeta in H200.
  destruct (known_metrics names (get_llm cfg)) as [| m ms];
    [destruct (mean_of _ _); discriminate |].
  rewrite Hlib, Hagg in H200. cbn [ev_aggregate] in H200. rewrite Hmean in H200.
  injection H200 as _ <-. reflexivity.
Qed.

End Calls.

Lemma at_most_one_library_call_witness :
  exists es : list event,
    events (snd (evaluate_batch stub_ext stub_cfg paris_batch fresh)) = ([] ++ es)%list
    /\ (length (calls es) <= 1)%nat.
Proof.
  destruct (at_most_one_library_call stub_ext stub_cfg) as [_ Hbatch].
  destruct (Hbatch paris_batch fresh) as (es & Hes & Hcalls & _).
  exists es. split; assumption.
Defined.

Lemma evaluate_batch_calls_once_witness :
  exists (resp : BatchEvaluationResult) (w' : World),
    evaluate_batch stub_ext stub_cfg paris_batch fresh = (Http200 resp, w')
    /\ length (calls (events w')) = 1%nat
    /\ clock_reads w' = 3%nat.
Proof.
  eexists. eexists. split; [vm_compute; reflexivity |].
  edestruct (evaluate_batch_calls_once stub_ext stub_cfg paris_batch fresh)
    as (names & _ & Hcalls & _ & Hclock); [vm_compute; reflexivity |].
  split; [now rewrite Hcalls | exact Hclock].
Defined.

(** *** The per-metric aggregate *)

Lemma aggregate_loop_lookup (df : DataFrame) (names : list string) (m : string) :
  forall acc agg,
    aggregate_loop df names acc = Return agg ->
    (In m names -> str_in m (df_columns df) = true ->
     exists mean, df_mean df m = Return mean
                  /\ dict_get m agg = Some (_clean_float (VFloat mean)))
    /\ (~ (In m names /\ str_in m (df_columns df) = true) ->
        dict_get m agg = dict_get m acc).
Proof.
  induction names as [| n rest IH]; intros acc agg Hrun; cbn [aggregate_loop] in Hrun.
  - injection Hrun as <-. split; [intros [] | reflexivity].
  - destruct (str_in n (df_columns df)) eqn:Hn.
    + destruct (df_mean df n) as [mean | e] eqn:Hmean; [| discriminate].
      cbn [rbind] in Hrun. destruct (IH _ _ Hrun) as [Hset Hkeep]. split.
      * intros Hin Hcol.
        destruct (in_dec string_dec m rest) as [Hrest | Hrest]; [now apply Hset |].
        destruct Hin as [<- | Hin]; [| contradiction].
        exists mean. split; [exact Hmean |].
        rewrite Hkeep by tauto. apply dict_get_set_same.
      * intros Hnot. rewrite Hkeep by (cbn [In] in Hnot; tauto).
        apply dict_get_set_other. intros ->. apply Hnot. split; [now left | exact Hn].
    + destruct (IH _ _ Hrun) as [Hset Hkeep]. split.
      * intros [<- | Hin] Hcol; [congruence | now apply Hset].
      * intros Hnot. apply Hkeep. cbn [In] in Hnot. tauto.
Qed.

(** A loop that raised did so at the first requested column without a
    mean. *)
Lemma aggregate_loop_first_failure (df : DataFrame) (names : list string) :
  forall acc e,
    aggregate_loop df names acc = Raise e ->
    exists (before : list string) (m : string) (after : list string),
      names = (before ++ m :: after)%list
      /\ str_in m (df_columns df) = true
      /\ df_mean df m = Raise e
      /\ Forall (fun n => str_in n (df_columns df) = true ->
                          exists mean, df_mean df n = Return mean) before.
Proof.
  induction names as [| n rest IH]; intros acc e Hrun; cbn [aggregate_loop] in Hrun;
    [discriminate |].
  destruct (str_in n (df_columns df)) eqn:Hn.
  - destruct (df_mean df n) as [mean | e'] eqn:Hmean.
    + cbn [rbind] in Hrun.
      destruct (IH _ _ Hrun) as (before & m & after & -> & Hcol & Hraise & Hbefore).
      exists (n :: before), m, after. split; [reflexivity |].
      split; [exact Hcol |]. split; [exact Hraise |].
      apply List.Forall_cons; [intros _; now exists mean | exact Hbefore].
    + cbn [rbind] in Hrun. injection Hrun as ->.
      exists [], n, rest. split; [reflexivity |].
      split; [exact Hn |]. split; [exact Hmean | apply List.Forall_nil].
  - destruct (IH _ _ Hrun) as (before & m & after & -> & Hcol & Hraise & Hbefore).
    exists (n :: before), m, after. split; [reflexivity |].
    split; [exact Hcol |]. split; [exact Hraise |].
    apply List.Forall_cons; [intros Habs; congruence | exact Hbefore].
Qed.

Section Aggregates.

Variable ext : Externals.
Variable cfg : Config.

(** X12. In a batch answered with 200, every requested name that is a
    column of the library's table has an entry in the returned aggregate:
    the mean of that column, with a NaN or infinite mean replaced by
    [None].  (The name ["overall"] is the exception: its entry is the
    overall mean.) *)
Theorem requested_columns_are_aggregated (request : BatchEvaluationRequest)
    (w w' : World) (resp : BatchEvaluationResult) :
  evaluate_batch ext cfg request w = (Http200 resp, w') ->
  exists (names : list string) (df : DataFrame),
    batch_metrics request = Some names
    /\ ragas_evaluate ext (map to_single_turn (samples request))
         (known_metrics names (get_llm cfg)) = Return df
    /\ forall m, In m names -> str_in m (df_columns df) = true -> m <> "overall" ->
                 exists mean, df_mean df m = Return mean
                              /\ dict_get m (aggregate resp)
                                 = Some (_clean_float (VFloat mean)).
Proof.
  intros H200.
  apply evaluate_batch_200 in H200
    as (names & df & per_metric & overall & _ & Hnames & Hlib & Hagg & _ & Hresp & _).
  exists names, df. split; [exact Hnames |]. split; [exact Hlib |].
  intros m Hin Hcol Hne.
  destruct (aggregate_loop_lookup df names m _ _ Hagg) as [Hset _].
  destruct (Hset Hin Hcol) as (mean & Hmean & Hget).
  exists mean. split; [exact Hmean |].
  now rewrite Hresp, dict_get_set_other.
Qed.

(** X13. The single endpoint computes the per-metric aggregate too,
    although its response does not carry it: when the library has
    answered and a requested name is a column whose mean cannot be taken,
    the request is answered with 500, after the library has been called,
    with the message of the first such failure in request order: every
    requested column before it has a mean. *)
Theorem evaluate_single_fails_on_column_without_mean (request : SingleEvaluationRequest)
    (names : list string) (df : DataFrame) (m : string) (e0 : exn) (w : World) :
  single_metrics request = Some names ->
  existsb in_catalog names = true ->
  ragas_evaluate ext [to_single_turn (single_sample request)]
    (known_metrics names (get_llm cfg)) = Return df ->
  In m names -> str_in m (df_columns df) = true -> df_mean df m = Raise e0 ->
  exists (before : list string) (m' : string) (after : list string) (e : exn)
         (w' : World),
    evaluate_single ext cfg request w = (HTTPException 500 (exn_str e), w')
    /\ names = (before ++ m' :: after)%list
    /\ str_in m' (df_columns df) = true
    /\ df_mean df m' = Raise e
    /\ Forall (fun n => str_in n (df_columns df) = true ->
                        exists mean, df_mean df n = Return mean) before
    /\ calls (events w')
       = (calls (events w)
          ++ [CallEvaluate [to_single_turn (single_sample request)]
                (known_metrics names (get_llm cfg))])%list.
Proof.
  intros Hnames Hsome Hlib Hin Hcol Hmean.
  apply (known_metrics_some names (get_llm cfg)) in Hsome.
  destruct (aggregate_loop_Raise df names m e0 Hin Hcol Hmean [])
    as (m1 & e & Hrun & _).
  destruct (aggregate_loop_first_failure df names [] e Hrun)
    as (before & m' & after & Hsplit & Hcol' & Hmean' & Hbefore).
  remember (known_metrics names (get_llm cfg)) as instances eqn:Einst.
  destruct instances as [| m0 ms]; [congruence |].
  exists before, m', after, e. eexists.
  split; [| split; [exact Hsplit | split; [exact Hcol' | split; [exact Hmean' |
                                                          split; [exact Hbefore |]]]]].
  - rewrite evaluate_single_unfold, Hnames, run_evaluation_Some. cbv zeta.
    rewrite <- Einst. cbn [map] in *. rewrite Hlib, Hrun. reflexivity.
  - cbn [logged ticked events].
    rewrite !calls_app, calls_unknown_warnings. cbn. now rewrite app_nil_r.
Qed.

(** X14. When the library answers with a table without rows, the single
    endpoint still answers 200: with no metrics at all and an absent
    overall score. *)
Theorem evaluate_single_without_rows (request : SingleEvaluationRequest)
    (names : list string) (df : DataFrame) (agg : dict value) (w : World) :
  single_metrics request = Some names ->
  existsb in_catalog names = true ->
  ragas_evaluate ext [to_single_turn (single_sample request)]
    (known_metrics names (get_llm cfg)) = Return df ->
  df_records df = [] ->
  aggregate_loop df names [] = Return agg ->
  exists w' : World,
    evaluate_single ext cfg request w
    = (Http200 {| metrics := [];
                  overall_score := None;
                  evaluation_time_ms := measured ext w;
                  timestamp := isoformat ext (clock ext (2 + clock_reads w)) |}, w').
Proof.
  intros Hnames Hsome Hlib Hrows Hagg.
  apply (known_metrics_some names (get_llm cfg)) in Hsome.
  remember (known_metrics names (get_llm cfg)) as instances eqn:Einst.
  destruct instances as [| m0 ms]; [congruence |].
  eexists.
  rewrite evaluate_single_unfold, Hnames, run_evaluation_Some. cbv zeta.
  rewrite <- Einst. cbn [map] in *. rewrite Hlib, Hagg, Hrows. reflexivity.
Qed.

(** X15. In a 200 of the single endpoint, [evaluation_time_ms] is the
    time between the invoker's first reading of the clock and its reading
    right after the library has returned, so it leaves out the aggregation
    and the assembly of the response; [timestamp] is a third, later
    reading.  No other reading is taken. *)
Theorem evaluate_single_timing (request : SingleEvaluationRequest) (w w' : World)
    (resp : EvaluationResult) :
  evaluate_single ext cfg request w = (Http200 resp, w') ->
  evaluation_time_ms resp
  = elapsed_ms ext (clock ext (clock_reads w)) (clock ext (1 + clock_reads w))
  /\ timestamp resp = isoformat ext (clock ext (2 + clock_reads w))
  /\ clock_reads w' = (3 + clock_reads w)%nat.
Proof.
  rewrite evaluate_single_unfold. cbv zeta.
  destruct (run_evaluation ext cfg [single_sample request] (single_metrics request) w)
    as [[ev | e] w1] eqn:Hrun; [| discriminate].
  apply run_evaluation_Return in Hrun as (names & df & _ & _ & _ & _ & _ & Htime & ->).
  destruct (single_overall _ _) as [overall | e]; [| discriminate].
  intros H. injection H as <- <-.
  cbn [evaluation_time_ms timestamp ticked logged clock_reads].
  rewrite Htime. repeat split.
Qed.

End Aggregates.

Lemma requested_columns_are_aggregated_witness :
  exists (resp : BatchEvaluationResult) (w' : World),
    evaluate_batch stub_ext stub_cfg paris_batch fresh = (Http200 resp, w')
    /\ dict_get "context_recall" (aggregate resp) = Some (VFloat 0.25%float).
Proof.
  eexists. eexists. split; [vm_compute; reflexivity |].
  edestruct (requested_columns_are_aggregated stub_ext stub_cfg paris_batch fresh)
    as (names & df & Hnames & Hlib & Hget); [vm_compute; reflexivity |].
  injection Hnames as <-.
  cbn [ragas_evaluate stub_ext] in Hlib. unfold stub_evaluate in Hlib.
  injection Hlib as <-.
  destruct (Hget "context_recall") as (mean & Hmean & Hentry);
    [cbn [In]; auto | reflexivity | discriminate |].
  vm_compute in Hmean. injection Hmean as <-. reflexivity.
Defined.

Lemma evaluate_single_fails_on_column_without_mean_witness :
  exists (before : list string) (m' : string) (e : exn) (w' : World),
    evaluate_single stub_ext stub_cfg (paris_request ["faithfulness"; "user_input"]) fresh
    = (HTTPException 500 (exn_str e), w')
    /\ before = ["faithfulness"] /\ m' = "user_input"
    /\ length (calls (events w')) = 1%nat.
Proof.
  edestruct (evaluate_single_fails_on_column_without_mean stub_ext stub_cfg
               (paris_request ["faithfulness"; "user_input"])
               ["faithfulness"; "user_input"])
    with (m := "user_input") (w := fresh)
    as (before & m' & after & e & w' & Hrun & Hsplit & Hcol & Hraise & Hbefore & Hcalls);
    [reflexivity | reflexivity | reflexivity | cbn [In]; auto | reflexivity
    | vm_compute; reflexivity |].
  exists before, m', e, w'. split; [exact Hrun |].
  assert (Hfirst : before = ["faithfulness"] /\ m' = "user_input").
  { destruct before as [| b0 [| b1 before]].
    - injection Hsplit as <- _. vm_compute in Hraise. discriminate.
    - injection Hsplit as <- <- _. now split.
    - injection Hsplit as _ _ Habs. now destruct before. }
  destruct Hfirst as [-> ->].
  split; [reflexivity |]. split; [reflexivity | now rewrite Hcalls].
Defined.

Lemma evaluate_single_without_rows_witness :
  exists w' : World,
    evaluate_single empty_ext stub_cfg (paris_request ["faithfulness"]) fresh
    = (Http200 {| metrics := [];
                  overall_score := None;
                  evaluation_time_ms := 1000;
                  timestamp := "2024-01-01T00:00:00" |}, w').
Proof.
  apply (evaluate_single_without_rows empty_ext stub_cfg (paris_request ["faithfulness"])
           ["faithfulness"] empty_table [] fresh); reflexivity.
Defined.

Lemma evaluate_single_timing_witness :
  exists (resp : EvaluationResult) (w' : World),
    evaluate_single stub_ext stub_cfg (paris_request paris_names) fresh = (Http200 resp, w')
    /\ evaluation_time_ms resp = 1000
    /\ clock_reads w' = 3%nat.
Proof.
  eexists. eexists. split; [vm_compute; reflexivity |].
  edestruct (evaluate_single_timing stub_ext stub_cfg (paris_request paris_names) fresh)
    as (Htime & _ & Hclock); [vm_compute; reflexivity |].
  split; [rewrite Htime; reflexivity | exact Hclock].
Defined.

(** *** When a batch succeeds *)

Lemma existsb_in_catalog_iff (names : list string) (llm : LLM) :
  existsb in_catalog names = true <-> known_metrics names llm <> [].
Proof.
  split; [apply known_metrics_some |].
  intros Hne. destruct (existsb in_catalog names) eqn:Hex; [reflexivity |].
  exfalso. apply Hne. apply known_metrics_nil_iff.
  apply forallb_forall. intros n Hin.
  destruct (in_catalog n) eqn:Hn; [| reflexivity].
  assert (existsb in_catalog names = true)
    by (apply existsb_exists; now exists n).
  congruence.
Qed.

(** X16. A batch within the size bounds is answered with 200 exactly when
    its metrics name at least one catalog identifier, the library returns a
    table, every requested column of the table has a mean and the overall
    mean can be computed; the response and the history are then determined
    by the table: the cleaned records in order, the per-metric aggregate
    with its overall entry, the number of samples and the three readings
    of the clock. *)
Theorem evaluate_batch_succeeds_iff (ext : Externals) (cfg : Config)
    (request : BatchEvaluationRequest) (w w' : World) (resp : BatchEvaluationResult) :
  (1 <= length (samples request) <= 100)%nat ->
  evaluate_batch ext cfg request w = (Http200 resp, w')
  <-> exists (names : list string) (df : DataFrame) (per_metric : dict value)
             (overall : option float),
        batch_metrics request = Some names
        /\ existsb in_catalog names = true
        /\ ragas_evaluate ext (map to_single_turn (samples request))
             (known_metrics names (get_llm cfg)) = Return df
        /\ aggregate_loop df names [] = Return per_metric
        /\ mean_of present (dict_values per_metric) = Return overall
        /\ resp = {| results := map _clean_dict (df_records df);
                     aggregate := dict_set "overall" (value_of_overall overall) per_metric;
                     total_samples := length (samples request);
                     batch_evaluation_time_ms := measured ext w;
                     batch_timestamp := isoformat ext (clock ext (2 + clock_reads w)) |}
        /\ w' = ticked (logged w (unknown_warnings names
                                  ++ [starting_event (samples request) (Some names);
                                      CallEvaluate (map to_single_turn (samples request))
                                        (known_metrics names (get_llm cfg));
                                      completed_event (samples request) (measured ext w)])%list)
                  3.
Proof.
  intros Hsize. rewrite (evaluate_batch_unfold _ _ _ _ Hsize). cbv zeta.
  destruct (batch_metrics request) as [names |].
  2:{ rewrite run_evaluation_None. cbv zeta.
      split; [discriminate | intros (? & ? & ? & ? & H & _); discriminate]. }
  rewrite run_evaluation_Some. cbv zeta.
  pose proof (existsb_in_catalog_iff names (get_llm cfg)) as Hcat.
  remember (known_metrics names (get_llm cfg)) as instances eqn:Einst.
  destruct instances as [| m0 ms].
  { split; [discriminate |].
    intros (names' & ? & ? & ? & Hn & Hex & _). injection Hn as <-.
    apply Hcat in Hex. congruence. }
  destruct (ragas_evaluate ext (map to_single_turn (samples request)) (m0 :: ms))
    as [df | e] eqn:Hlib.
  2:{ split; [discriminate |].
      intros (names' & ? & ? & ? & Hn & _ & Hl & _). injection Hn as <-.
      rewrite <- Einst in Hl. congruence. }
  destruct (aggregate_loop df names []) as [per_metric | e] eqn:Hagg.
  2:{ split; [discriminate |].
      intros (names' & df' & ? & ? & Hn & _ & Hl & Ha & _). injection Hn as <-.
      rewrite <- Einst in Hl. rewrite Hlib in Hl. injection Hl as <-. congruence. }
  cbn [ev_aggregate ev_scores ev_evaluation_time_ms].
  destruct (mean_of present (dict_values per_metric)) as [overall | e] eqn:Hmean.
  2:{ split; [discriminate |].
      intros (names' & df' & pm & ? & Hn & _ & Hl & Ha & Hm & _). injection Hn as <-.
      rewrite <- Einst in Hl. rewrite Hlib in Hl. injection Hl as <-.
      rewrite Hagg in Ha. injection Ha as <-. congruence. }
  unfold ticked, logged. cbn [events clock_reads Nat.add].
  rewrite <- !app_assoc. cbn [app].
  split.
  - intros H. injection H as <- <-.
    exists names, df, per_metric, overall.
    split; [reflexivity |]. split; [apply Hcat; discriminate |].
    split; [now rewrite <- Einst |]. split; [exact Hagg |]. split; [exact Hmean |].
    split; [reflexivity |]. rewrite <- Einst. reflexivity.
  - intros (names' & df' & pm & o & Hn & _ & Hl & Ha & Hm & -> & ->).
    injection Hn as <-. rewrite <- Einst in *. rewrite Hlib in Hl. injection Hl as <-.
    rewrite Hagg in Ha. injection Ha as <-. rewrite Hmean in Hm. injection Hm as <-.
    reflexivity.
Qed.

Lemma evaluate_batch_succeeds_iff_witness :
  exists (resp : BatchEvaluationResult) (w' : World),
    evaluate_batch stub_ext stub_cfg paris_batch fresh = (Http200 resp, w')
    /\ total_samples resp = 2%nat
    /\ clock_reads w' = 3%nat.
Proof.
  eexists. eexists.
  assert (Hsize : (1 <= length (samples paris_batch) <= 100)%nat) by (simpl; lia).
  split.
  - apply (evaluate_batch_succeeds_iff stub_ext stub_cfg paris_batch fresh _ _ Hsize).
    eexists. eexists. eexists. eexists.
    split; [reflexivity |]. split; [reflexivity |]. split; [reflexivity |].
    split; [vm_compute; reflexivity |]. split; [vm_compute; reflexivity |].
    split; reflexivity.
  - split; reflexivity.
Defined.

(* ====================================================================== *)
(** ** The service contract: what the handlers produce *)
(* ====================================================================== *)

Lemma aggregate_loop_total (df : DataFrame) (names : list string) (acc : dict value) :
  (forall n, In n names -> str_in n (df_columns df) = true ->
             exists mean, df_mean df n = Return mean) ->
  exists agg, aggregate_loop df names acc = Return agg.
Proof.
  intros Hmeans.
  destruct (aggregate_loop df names acc) as [agg | e] eqn:Hrun; [now exists agg |].
  destruct (aggregate_loop_first_failure df names acc e Hrun)
    as (before & m & after & -> & Hcol & Hraise & _).
  destruct (Hmeans m (in_elt m before after) Hcol) as [mean Hmean]. congruence.
Qed.

Lemma scrub_record_lookup (d : dict value) (k : string) :
  dict_get k (scrub_record d) = option_map scrubbed (dict_get k d).
Proof.
  induction d as [| [k' v] rest IH]; [reflexivity |].
  cbn [scrub_record map dict_get fst snd]. fold (scrub_record rest).
  destruct (String.eqb k k'); [reflexivity | exact IH].
Qed.

Lemma single_overall_Some (scores : dict value) (names : list string) :
  single_overall scores (Some names)
  = mean_of isinstance_int_float (dict_values (restrict_to names scores)).
Proof.
  unfold single_overall. rewrite valid_scores_of_Some. cbn [rbind].
  now rewrite values_of_filtered.
Qed.

Lemma map_clean_dict_scrubbed (records : list (dict value)) :
  map _clean_dict records = map scrub_record records.
Proof. apply map_ext, clean_dict_scrubbed. Qed.

Section Produced.

Variable ext : Externals.
Variable cfg : Config.

(** Sufficient conditions for a 200 of the single endpoint, with the
    response and the history. *)
Lemma evaluate_single_returns (request : SingleEvaluationRequest) (names : list string)
    (df : DataFrame) (agg : dict value) (overall : option float) (w : World) :
  single_metrics request = Some names ->
  existsb in_catalog names = true ->
  ragas_evaluate ext [to_single_turn (single_sample request)]
    (known_metrics names (get_llm cfg)) = Return df ->
  aggregate_loop df names [] = Return agg ->
  mean_of isinstance_int_float
    (dict_values (restrict_to names (first_record (map scrub_record (df_records df)))))
  = Return overall ->
  evaluate_single ext cfg request w
  = (Http200 {| metrics := first_record (map scrub_record (df_records df));
                overall_score := overall;
                evaluation_time_ms := measured ext w;
                timestamp := isoformat ext (clock ext (2 + clock_reads w)) |},
     completed_run ext cfg [single_sample request] names w).
Proof.
  intros Hnames Hsome Hlib Hagg Hmean.
  apply (known_metrics_some names (get_llm cfg)) in Hsome.
  unfold completed_run.
  remember (known_metrics names (get_llm cfg)) as instances eqn:Einst.
  destruct instances as [| m0 ms]; [congruence |].
  rewrite evaluate_single_unfold, Hnames, run_evaluation_Some. cbv zeta.
  rewrite <- Einst. cbn [map] in *. rewrite Hlib, Hagg.
  cbn [ev_scores ev_evaluation_time_ms].
  rewrite single_overall_Some, map_clean_dict_scrubbed, Hmean.
  unfold ticked, logged. cbn [events clock_reads Nat.add].
  now rewrite <- !app_assoc.
Qed.

(** Sufficient conditions for a 200 of the batch endpoint, with the
    response and the history. *)
Lemma evaluate_batch_returns (request : BatchEvaluationRequest) (names : list string)
    (df : DataFrame) (per_metric : dict value) (overall : option float) (w : World) :
  (1 <= length (samples request) <= 100)%nat ->
  batch_metrics request = Some names ->
  existsb in_catalog names = true ->
  ragas_evaluate ext (map to_single_turn (samples request))
    (known_metrics names (get_llm cfg)) = Return df ->
  aggregate_loop df names [] = Return per_metric ->
  mean_of present (dict_values per_metric) = Return overall ->
  evaluate_batch ext cfg request w
  = (Http200 {| results := map scrub_record (df_records df);
                aggregate := dict_set "overall" (value_of_overall overall) per_metric;
                total_samples := length (samples request);
                batch_evaluation_time_ms := measured ext w;
                batch_timestamp := isoformat ext (clock ext (2 + clock_reads w)) |},
     completed_run ext cfg (samples request) names w).
Proof.
  intros Hsize Hnames Hsome Hlib Hagg Hmean.
  apply (known_metrics_some names (get_llm cfg)) in Hsome.
  unfold completed_run.
  remember (known_metrics names (get_llm cfg)) as instances eqn:Einst.
  destruct instances as [| m0 ms]; [congruence |].
  rewrite (evaluate_batch_unfold _ _ _ _ Hsize), Hnames, run_evaluation_Some. cbv zeta.
  rewrite <- Einst, Hlib, Hagg. cbn [ev_scores ev_aggregate ev_evaluation_time_ms].
  rewrite Hmean, map_clean_dict_scrubbed.
  unfold ticked, logged. cbn [events clock_reads Nat.add].
  now rewrite <- !app_assoc.
Qed.

(** With a catalog identifier among the names, the invoker logs its
    warnings and reaches the library with the known instances, whatever
    happens next. *)
Lemma run_evaluation_reaches_library (samples : list EvaluationSample)
    (names : list string) (w : World) :
  existsb in_catalog names = true ->
  exists rest : list event,
    events (snd (run_evaluation ext cfg samples (Some names) w))
    = (events w
       ++ map unknown_warning (List.filter (fun n => negb (in_catalog n)) names)
       ++ [starting_event samples (Some names);
           CallEvaluate (map to_single_turn samples)
             (known_metrics (List.filter in_catalog names) (get_llm cfg))]
       ++ rest)%list
    /\ calls rest = [].
Proof.
  intros Hsome. apply (known_metrics_some names (get_llm cfg)) in Hsome.
  rewrite <- known_metrics_filter, <- unknown_warnings_filter.
  rewrite run_evaluation_Some. cbv zeta.
  remember (known_metrics names (get_llm cfg)) as instances eqn:Einst.
  destruct instances as [| m0 ms]; [congruence |].
  destruct (ragas_evaluate ext (map to_single_turn samples) (m0 :: ms)) as [df | e].
  - destruct (aggregate_loop df names []) as [agg | e];
      eexists; cbn [snd ticked logged events];
      (split; [rewrite <- !app_assoc; cbn [app]; reflexivity | reflexivity]).
  - eexists. cbn [snd ticked logged events].
    split; [rewrite <- !app_assoc; cbn [app]; reflexivity | reflexivity].
Qed.

Lemma evaluate_single_reaches_library (request : SingleEvaluationRequest)
    (names : list string) (w : World) :
  single_metrics request = Some names ->
  existsb in_catalog names = true ->
  exists rest : list event,
    events (snd (evaluate_single ext cfg request w))
    = (events w
       ++ map unknown_warning (List.filter (fun n => negb (in_catalog n)) names)
       ++ [starting_event [single_sample request] (Some names);
           CallEvaluate [to_single_turn (single_sample request)]
             (known_metrics (List.filter in_catalog names) (get_llm cfg))]
       ++ rest)%list
    /\ calls rest = [].
Proof.
  intros Hnames Hsome.
  destruct (run_evaluation_reaches_library [single_sample request] names w Hsome)
    as (rest & Hrest & Hcalls).
  rewrite evaluate_single_unfold, Hnames. cbv zeta.
  destruct (run_evaluation ext cfg [single_sample request] (Some names) w)
    as [[ev | e] w1]; cbn [snd] in Hrest.
  - destruct (single_overall _ _) as [overall | e]; cbn [snd ticked logged events].
    + exists rest. split; [exact Hrest | exact Hcalls].
    + exists (rest ++ [failed_event "Single evaluation failed" e])%list.
      rewrite Hrest, <- !app_assoc. cbn [app]. split; [reflexivity |].
      now rewrite calls_app, Hcalls.
  - cbn [snd ticked logged events].
    exists (rest ++ [failed_event "Single evaluation failed" e])%list.
    rewrite Hrest, <- !app_assoc. cbn [app]. split; [reflexivity |].
    now rewrite calls_app, Hcalls.
Qed.

Lemma evaluate_batch_reaches_library (request : BatchEvaluationRequest)
    (names : list string) (w : World) :
  (1 <= length (samples request) <= 100)%nat ->
  batch_metrics request = Some names ->
  existsb in_catalog names = true ->
  exists rest : list event,
    events (snd (evaluate_batch ext cfg request w))
    = (events w
       ++ map unknown_warning (List.filter (fun n => negb (in_catalog n)) names)
       ++ [starting_event (samples request) (Some names);
           CallEvaluate (map to_single_turn (samples request))
             (known_metrics (List.filter in_catalog names) (get_llm cfg))]
       ++ rest)%list
    /\ calls rest = [].
Proof.
  intros Hsize Hnames Hsome.
  destruct (run_evaluation_reaches_library (samples request) names w Hsome)
    as (rest & Hrest & Hcalls).
  rewrite (evaluate_batch_unfold _ _ _ _ Hsize), Hnames. cbv zeta.
  destruct (run_evaluation ext cfg (samples request) (Some names) w)
    as [[ev | e] w1]; cbn [snd] in Hrest.
  - destruct (mean_of _ _) as [overall | e]; cbn [snd ticked logged events].
    + exists rest. split; [exact Hrest | exact Hcalls].
    + exists (rest ++ [failed_event "Batch evaluation failed" e])%list.
      rewrite Hrest, <- !app_assoc. cbn [app]. split; [reflexivity |].
      now rewrite calls_app, Hcalls.
  - cbn [snd ticked logged events].
    exists (rest ++ [failed_event "Batch evaluation failed" e])%list.
    rewrite Hrest, <- !app_assoc. cbn [app]. split; [reflexivity |].
    now rewrite calls_app, Hcalls.
Qed.

End Produced.

(** C2. The entry ["overall"] of a batch response is the arithmetic mean
    of the non-absent per-metric aggregates.  It is produced: for a batch
    within the size bounds whose metrics name a catalog identifier, once
    the library has returned its table and the invoker its per-metric
    aggregate, the endpoint answers 200 with ["overall"] set to the mean of
    the aggregates that are not [None], however many of them are [None];
    and when all of them are [None] it answers 200 with ["overall"] set to
    [None].  Conversely every 200 is of this form, each per-metric
    aggregate being the scrubbed mean of a column of the table. *)
Theorem evaluate_batch_overall_aggregate (ext : Externals) (cfg : Config)
    (request : BatchEvaluationRequest) (w : World) :
  (forall names df per_metric overall,
      (1 <= length (samples request) <= 100)%nat ->
      batch_metrics request = Some names ->
      existsb in_catalog names = true ->
      ragas_evaluate ext (map to_single_turn (samples request))
        (known_metrics names (get_llm cfg)) = Return df ->
      aggregate_loop df names [] = Return per_metric ->
      mean_of present (dict_values per_metric) = Return overall ->
      exists resp w',
        evaluate_batch ext cfg request w = (Http200 resp, w')
        /\ aggregate resp = dict_set "overall" (value_of_overall overall) per_metric
        /\ dict_get "overall" (aggregate resp) = Some (value_of_overall overall))
  /\ (forall names df per_metric,
        (1 <= length (samples request) <= 100)%nat ->
        batch_metrics request = Some names ->
        existsb in_catalog names = true ->
        ragas_evaluate ext (map to_single_turn (samples request))
          (known_metrics names (get_llm cfg)) = Return df ->
        aggregate_loop df names [] = Return per_metric ->
        Forall (fun v => v = VNone) (dict_values per_metric) ->
        exists resp w',
          evaluate_batch ext cfg request w = (Http200 resp, w')
          /\ aggregate resp = dict_set "overall" VNone per_metric
          /\ dict_get "overall" (aggregate resp) = Some VNone)
  /\ (forall resp w',
        evaluate_batch ext cfg request w = (Http200 resp, w') ->
        exists (names : list string) (df : DataFrame) (per_metric : dict value)
               (overall : option float),
          batch_metrics request = Some names
          /\ ragas_evaluate ext (map to_single_turn (samples request))
               (known_metrics names (get_llm cfg)) = Return df
          /\ aggregate_loop df names [] = Return per_metric
          /\ Forall (fun kv => exists m, df_mean df (fst kv) = Return m
                                         /\ snd kv = scrubbed (VFloat m)) per_metric
          /\ aggregate resp = dict_set "overall" (value_of_overall overall) per_metric
          /\ dict_get "overall" (aggregate resp) = Some (value_of_overall overall)
          /\ mean_of present (dict_values per_metric) = Return overall
          /\ (Forall (fun v => v = VNone) (dict_values per_metric) -> overall = None)).
Proof.
  split; [| split].
  - intros names df per_metric overall Hsize Hnames Hsome Hlib Hagg Hmean.
    eexists. eexists.
    split; [exact (evaluate_batch_returns ext cfg request names df per_metric overall w
                     Hsize Hnames Hsome Hlib Hagg Hmean) |].
    cbn [aggregate]. split; [reflexivity | apply dict_get_set_same].
  - intros names df per_metric Hsize Hnames Hsome Hlib Hagg Hnone.
    assert (Hmean : mean_of present (dict_values per_metric) = Return None).
    { unfold mean_of. rewrite (filter_all_absent present _); [reflexivity | | exact Hnone].
      intros v Hv. unfold present in Hv. now destruct (absent v). }
    eexists. eexists.
    split; [exact (evaluate_batch_returns ext cfg request names df per_metric None w
                     Hsize Hnames Hsome Hlib Hagg Hmean) |].
    cbn [aggregate value_of_overall]. split; [reflexivity | apply dict_get_set_same].
  - intros resp w' H200.
    apply evaluate_batch_200 in H200
      as (names & df & per_metric & overall & _ & Hnames & Hlib & Hagg & Hmean & Hresp & _).
    exists names, df, per_metric, overall.
    split; [exact Hnames |]. split; [exact Hlib |]. split; [exact Hagg |].
    split; [now apply aggregate_entries_scrubbed with (names := names) |].
    split; [exact Hresp |].
    split; [rewrite Hresp; apply dict_get_set_same |].
    split; [exact Hmean |].
    intros Hnone. unfold mean_of in Hmean.
    rewrite (filter_all_absent present _) in Hmean; [| | exact Hnone].
    + now injection Hmean.
    + intros v Hv. unfold present in Hv. now destruct (absent v).
Qed.

Lemma evaluate_batch_overall_aggregate_witness :
  (exists resp w',
      evaluate_batch stub_ext stub_cfg (recall_batch ["faithfulness"; "context_recall"]) fresh
      = (Http200 resp, w')
      /\ aggregate resp = [("faithfulness", VFloat 0.5%float);
                           ("context_recall", VNone);
                           ("overall", VFloat 0.5%float)])
  /\ (exists resp w',
        evaluate_batch stub_ext stub_cfg (recall_batch ["context_recall"]) fresh
        = (Http200 resp, w')
        /\ aggregate resp = [("context_recall", VNone); ("overall", VNone)]).
Proof.
  split.
  - destruct (evaluate_batch_overall_aggregate stub_ext stub_cfg
                (recall_batch ["faithfulness"; "context_recall"]) fresh) as (Hmean & _ & _).
    edestruct (Hmean ["faithfulness"; "context_recall"]) as (resp & w' & Hrun & Hagg & _);
      [simpl; lia | reflexivity | reflexivity | reflexivity
      | vm_compute; reflexivity | vm_compute; reflexivity |].
    exists resp, w'. split; [exact Hrun | rewrite Hagg; reflexivity].
  - destruct (evaluate_batch_overall_aggregate stub_ext stub_cfg
                (recall_batch ["context_recall"]) fresh) as (_ & Hnone & _).
    edestruct (Hnone ["context_recall"]) as (resp & w' & Hrun & Hagg & _);
      [simpl; lia | reflexivity | reflexivity | reflexivity
      | vm_compute; reflexivity | repeat constructor |].
    exists resp, w'. split; [exact Hrun | rewrite Hagg; reflexivity].
Defined.

(** C4. The cleaning step turns a non-finite float (NaN or an infinity)
    into [None], which is neither [0] nor [0.0], and returns every other
    value unchanged; it is a total function, so it cannot fail.  The
    responses carry the cleaned values, and are produced: once the library
    has returned its table and every requested column has a mean, the
    single endpoint answers 200 with the cleaned first record as [metrics]
    (as soon as the mean of its numbers under the requested names, the
    non-finite ones left out, can be taken), and the batch endpoint answers
    200 with every record cleaned, in order, and with an aggregate that
    holds, for each requested column, its mean, or [None] where that mean
    is NaN or infinite (as soon as the mean of the aggregates that are not
    [None] can be taken).  Conversely every 200 has this form. *)
Theorem non_finite_scores_become_null (ext : Externals) (cfg : Config) :
  (forall v, _clean_float v = scrubbed v)
  /\ (forall d, _clean_dict d = scrub_record d)
  /\ (forall v, non_finite v = true ->
        scrubbed v = VNone /\ scrubbed v <> VFloat 0%float /\ scrubbed v <> VInt 0)
  /\ (forall v, non_finite v = false -> scrubbed v = v)
  /\ (forall d k, dict_get k (scrub_record d) = option_map scrubbed (dict_get k d))
  /\ (forall request names df overall w,
        single_metrics request = Some names ->
        existsb in_catalog names = true ->
        ragas_evaluate ext [to_single_turn (single_sample request)]
          (known_metrics names (get_llm cfg)) = Return df ->
        (forall n, In n names -> str_in n (df_columns df) = true ->
                   exists mean, df_mean df n = Return mean) ->
        mean_of isinstance_int_float
          (dict_values (restrict_to names (first_record (map scrub_record (df_records df)))))
        = Return overall ->
        exists w',
          evaluate_single ext cfg request w
          = (Http200 {| metrics := first_record (map scrub_record (df_records df));
                        overall_score := overall;
                        evaluation_time_ms := measured ext w;
                        timestamp := isoformat ext (clock ext (2 + clock_reads w)) |},
             w'))
  /\ (forall request names df w,
        (1 <= length (samples request) <= 100)%nat ->
        batch_metrics request = Some names ->
        existsb in_catalog names = true ->
        ragas_evaluate ext (map to_single_turn (samples request))
          (known_metrics names (get_llm cfg)) = Return df ->
        (forall n, In n names -> str_in n (df_columns df) = true ->
                   exists mean, df_mean df n = Return mean) ->
        exists per_metric,
          aggregate_loop df names [] = Return per_metric
          /\ (forall m mean,
                In m names -> str_in m (df_columns df) = true ->
                df_mean df m = Return mean ->
                dict_get m per_metric = Some (scrubbed (VFloat mean)))
          /\ (forall overall,
                mean_of present (dict_values per_metric) = Return overall ->
                exists w',
                  evaluate_batch ext cfg request w
                  = (Http200
                       {| results := map scrub_record (df_records df);
                          aggregate := dict_set "overall" (value_of_overall overall)
                                         per_metric;
                          total_samples := length (samples request);
                          batch_evaluation_time_ms := measured ext w;
                          batch_timestamp :=
                            isoformat ext (clock ext (2 + clock_reads w)) |},
                     w')))
  /\ (forall request w w' resp,
        evaluate_single ext cfg request w = (Http200 resp, w') ->
        exists names df,
          single_metrics request = Some names
          /\ ragas_evaluate ext [to_single_turn (single_sample request)]
               (known_metrics names (get_llm cfg)) = Return df
          /\ metrics resp = match df_records df with
                            | first :: _ => scrub_record first
                            | [] => []
                            end)
  /\ (forall request w w' resp,
        evaluate_batch ext cfg request w = (Http200 resp, w') ->
        exists names df per_metric overall,
          batch_metrics request = Some names
          /\ ragas_evaluate ext (map to_single_turn (samples request))
               (known_metrics names (get_llm cfg)) = Return df
          /\ results resp = map scrub_record (df_records df)
          /\ aggregate resp = dict_set "overall" (value_of_overall overall) per_metric
          /\ Forall (fun kv => exists m, df_mean df (fst kv) = Return m
                                         /\ snd kv = scrubbed (VFloat m)) per_metric).
Proof.
  split; [exact clean_float_scrubbed |].
  split; [exact clean_dict_scrubbed |].
  split.
  { intros v Hv. unfold scrubbed. rewrite Hv. repeat split; discriminate. }
  split.
  { intros v Hv. unfold scrubbed. now rewrite Hv. }
  split; [exact scrub_record_lookup |].
  split.
  { intros request names df overall w Hnames Hsome Hlib Hmeans Hmean.
    destruct (aggregate_loop_total df names [] Hmeans) as [agg Hagg].
    eexists.
    exact (evaluate_single_returns ext cfg request names df agg overall w
             Hnames Hsome Hlib Hagg Hmean). }
  split.
  { intros request names df w Hsize Hnames Hsome Hlib Hmeans.
    destruct (aggregate_loop_total df names [] Hmeans) as [per_metric Hagg].
    exists per_metric. split; [exact Hagg |]. split.
    - intros m mean Hin Hcol Hmean.
      destruct (aggregate_loop_lookup df names m _ _ Hagg) as [Hset _].
      destruct (Hset Hin Hcol) as (mean' & Hmean' & Hget).
      rewrite Hmean in Hmean'. injection Hmean' as <-.
      now rewrite Hget, clean_float_scrubbed.
    - intros overall Hmean. eexists.
      exact (evaluate_batch_returns ext cfg request names df per_metric overall w
               Hsize Hnames Hsome Hlib Hagg Hmean). }
  split.
  - intros request w w' resp H200.
    apply evaluate_single_200 in H200 as (names & df & Hnames & Hlib & Hm & _).
    exists names, df. repeat (split; [assumption |]).
    rewrite Hm. destruct (df_records df); [reflexivity | apply clean_dict_scrubbed].
  - intros request w w' resp H200.
    apply evaluate_batch_200 in H200
      as (names & df & per_metric & overall & _ & Hnames & Hlib & Hagg & _ & Hresp & Hres & _).
    exists names, df, per_metric, overall. repeat (split; [assumption |]).
    split.
    + rewrite Hres. apply map_ext, clean_dict_scrubbed.
    + split; [exact Hresp | now apply aggregate_entries_scrubbed with (names := names)].
Qed.

Lemma non_finite_table_means (n : string) :
  In n catalog -> str_in n (df_columns non_finite_table) = true ->
  exists mean, df_mean non_finite_table n = Return mean.
Proof.
  intros Hin _. cbn [In catalog] in Hin.
  destruct Hin as [<- | [<- | [<- | [<- | []]]]]; eexists; reflexivity.
Qed.

Lemma non_finite_scores_become_null_witness :
  (exists w',
      evaluate_single (table_ext non_finite_table) stub_cfg (paris_request catalog) fresh
      = (Http200 {| metrics := [("user_input", VStr "What is the capital of France?");
                                ("faithfulness", VNone);
                                ("answer_relevancy", VNone);
                                ("context_recall", VNone);
                                ("context_precision", VFloat 0.5%float)];
                    overall_score := Some 0.5%float;
                    evaluation_time_ms := 1000;
                    timestamp := "2024-01-01T00:00:00" |}, w'))
  /\ (exists w',
        evaluate_batch (table_ext non_finite_table) stub_cfg
          {| samples := [paris]; batch_metrics := Some catalog |} fresh
        = (Http200 {| results := [[("user_input", VStr "What is the capital of France?");
                                   ("faithfulness", VNone);
                                   ("answer_relevancy", VNone);
                                   ("context_recall", VNone);
                                   ("context_precision", VFloat 0.5%float)]];
                      aggregate := [("faithfulness", VNone);
                                    ("answer_relevancy", VNone);
                                    ("context_precision", VFloat 0.5%float);
                                    ("context_recall", VNone);
                                    ("overall", VFloat 0.5%float)];
                      total_samples := 1;
                      batch_evaluation_time_ms := 1000;
                      batch_timestamp := "2024-01-01T00:00:00" |}, w'))
  /\ _clean_float (VFloat nan) = VNone
  /\ _clean_float (VFloat infinity) = VNone
  /\ _clean_float (VFloat neg_infinity) = VNone
  /\ _clean_float (VFloat 0.5%float) = VFloat 0.5%float.
Proof.
  destruct (non_finite_scores_become_null (table_ext non_finite_table) stub_cfg)
    as (Hclean & _ & Hnull & Hkeep & _ & Hsingle & Hbatch & _).
  split; [| split].
  - apply (Hsingle (paris_request catalog) catalog non_finite_table (Some 0.5%float) fresh);
      [reflexivity | reflexivity | reflexivity | exact non_finite_table_means
      | vm_compute; reflexivity].
  - destruct (Hbatch {| samples := [paris]; batch_metrics := Some catalog |} catalog
                non_finite_table fresh)
      as (per_metric & Hagg & _ & Hresp);
      [simpl; lia | reflexivity | reflexivity | reflexivity
      | exact non_finite_table_means |].
    vm_compute in Hagg. injection Hagg as <-.
    apply (Hresp (Some 0.5%float)). vm_compute. reflexivity.
  - rewrite !Hclean.
    split; [apply (Hnull (VFloat nan)); reflexivity |].
    split; [apply (Hnull (VFloat infinity)); reflexivity |].
    split; [apply (Hnull (VFloat neg_infinity)); reflexivity |].
    apply (Hkeep (VFloat 0.5%float)); reflexivity.
Defined.

(** C5. The metric factory instantiates the requested identifiers of the
    catalog [{faithfulness, answer_relevancy, context_precision,
    context_recall}] only, and logs one warning per other identifier
    without failing.  On both endpoints (for a batch within the size
    bounds), a list that names at least one catalog identifier gets its
    warnings logged and then reaches the library, in one call that carries
    exactly the instances of its catalog identifiers, whatever the other
    identifiers are and whatever the library answers; a request answered
    with 200 has made that call and no other.  When every supplied
    identifier is unknown, both endpoints answer HTTP 500 with the message
    of the raised error, and the library has not been called. *)
Theorem unknown_metrics_excluded (ext : Externals) (cfg : Config) :
  (forall names llm w,
      get_metrics (Some names) llm w
      = (Return (known_metrics (List.filter in_catalog names) llm),
         logged w (map unknown_warning
                       (List.filter (fun n => negb (in_catalog n)) names))))
  /\ (forall request w names,
        single_metrics request = Some names ->
        existsb in_catalog names = true ->
        exists rest : list event,
          events (snd (evaluate_single ext cfg request w))
          = (events w
             ++ map unknown_warning (List.filter (fun n => negb (in_catalog n)) names)
             ++ [starting_event [single_sample request] (Some names);
                 CallEvaluate [to_single_turn (single_sample request)]
                   (known_metrics (List.filter in_catalog names) (get_llm cfg))]
             ++ rest)%list
          /\ calls rest = [])
  /\ (forall request w names,
        (1 <= length (samples request) <= 100)%nat ->
        batch_metrics request = Some names ->
        existsb in_catalog names = true ->
        exists rest : list event,
          events (snd (evaluate_batch ext cfg request w))
          = (events w
             ++ map unknown_warning (List.filter (fun n => negb (in_catalog n)) names)
             ++ [starting_event (samples request) (Some names);
                 CallEvaluate (map to_single_turn (samples request))
                   (known_metrics (List.filter in_catalog names) (get_llm cfg))]
             ++ rest)%list
          /\ calls rest = [])
  /\ (forall request w w' resp names,
        single_metrics request = Some names ->
        evaluate_single ext cfg request w = (Http200 resp, w') ->
        calls (events w')
        = (calls (events w)
           ++ [CallEvaluate [to_single_turn (single_sample request)]
                 (known_metrics (List.filter in_catalog names) (get_llm cfg))])%list)
  /\ (forall request w w' resp names,
        batch_metrics request = Some names ->
        evaluate_batch ext cfg request w = (Http200 resp, w') ->
        calls (events w')
        = (calls (events w)
           ++ [CallEvaluate (map to_single_turn (samples request))
                 (known_metrics (List.filter in_catalog names) (get_llm cfg))])%list)
  /\ (forall request w names,
        single_metrics request = Some names ->
        forallb (fun n => negb (in_catalog n)) names = true ->
        exists w',
          evaluate_single ext cfg request w
          = (HTTPException 500 "No valid metrics specified", w')
          /\ calls (events w') = calls (events w))
  /\ (forall request w names,
        (1 <= length (samples request) <= 100)%nat ->
        batch_metrics request = Some names ->
        forallb (fun n => negb (in_catalog n)) names = true ->
        exists w',
          evaluate_batch ext cfg request w
          = (HTTPException 500 "No valid metrics specified", w')
          /\ calls (events w') = calls (events w)).
Proof.
  split.
  { intros names llm w.
    now rewrite get_metrics_spec, <- known_metrics_filter, unknown_warnings_filter. }
  split; [intros request w names; apply evaluate_single_reaches_library |].
  split; [intros request w names; apply evaluate_batch_reaches_library |].
  split.
  { intros request w w' resp names Hnames H200.
    apply evaluate_single_200 in H200 as (names' & df & Hnames' & _ & _ & _ & _ & Hw').
    rewrite Hnames in Hnames'. injection Hnames' as <-.
    rewrite Hw', <- known_metrics_filter. now apply calls_of_run. }
  split.
  { intros request w w' resp names Hnames H200.
    apply evaluate_batch_200 in H200
      as (names' & df & pm & o & _ & Hnames' & _ & _ & _ & _ & _ & _ & Hw').
    rewrite Hnames in Hnames'. injection Hnames' as <-.
    rewrite Hw', <- known_metrics_filter. now apply calls_of_run. }
  split.
  - intros request w names. apply evaluate_single_no_valid_metrics.
  - intros request w names. apply evaluate_batch_no_valid_metrics.
Qed.

Lemma unknown_metrics_excluded_witness :
  (exists rest : list event,
      events (snd (evaluate_single stub_ext stub_cfg (paris_request paris_names) fresh))
      = ([Log WARNING "Unknown metric: bogus" [];
          starting_event [paris] (Some paris_names);
          CallEvaluate [to_single_turn paris]
            (known_metrics ["faithfulness"; "context_recall"; "context_precision"]
               (get_llm stub_cfg))] ++ rest)%list
      /\ calls rest = [])
  /\ (exists rest : list event,
        events (snd (evaluate_batch stub_ext stub_cfg mixed_batch fresh))
        = ([Log WARNING "Unknown metric: bogus" [];
            starting_event [paris; paris_with_truth] (Some paris_names);
            CallEvaluate [to_single_turn paris; to_single_turn paris_with_truth]
              (known_metrics ["faithfulness"; "context_recall"; "context_precision"]
                 (get_llm stub_cfg))] ++ rest)%list
        /\ calls rest = [])
  /\ (exists resp w',
        evaluate_batch stub_ext stub_cfg mixed_batch fresh = (Http200 resp, w')
        /\ length (calls (events w')) = 1%nat)
  /\ (exists w',
        evaluate_single stub_ext stub_cfg (paris_request ["bogus"; "accuracy"]) fresh
        = (HTTPException 500 "No valid metrics specified", w')
        /\ calls (events w') = calls (events fresh))
  /\ (exists w',
        evaluate_batch stub_ext stub_cfg (recall_batch ["bogus"]) fresh
        = (HTTPException 500 "No valid metrics specified", w')
        /\ calls (events w') = calls (events fresh)).
Proof.
  destruct (unknown_metrics_excluded stub_ext stub_cfg)
    as (_ & Hsingle & Hbatch & _ & Hcalls & Hnone & Hnone_batch).
  split; [| split; [| split; [| split]]].
  - apply (Hsingle (paris_request paris_names) fresh paris_names); reflexivity.
  - apply (Hbatch mixed_batch fresh paris_names); [simpl; lia | reflexivity | reflexivity].
  - eexists. eexists. split; [vm_compute; reflexivity |].
    erewrite (Hcalls mixed_batch fresh _ _ paris_names);
      [reflexivity | reflexivity | vm_compute; reflexivity].
  - apply (Hnone (paris_request ["bogus"; "accuracy"]) fresh ["bogus"; "accuracy"]);
      reflexivity.
  - apply (Hnone_batch (recall_batch ["bogus"]) fresh ["bogus"]);
      [simpl; lia | reflexivity | reflexivity].
Defined.
